(** * ghes_migration_tools: the authenticated API client layer

    A shallow embedding of

    - [src/github/github_api_handler.py] (class [GitHubAPIHandler]): URL
      normalisation, REST and GraphQL root resolution, identity resolution
      at construction time and the GraphQL request;
    - [src/users_dump_slack.py] ([fetch_all_users]): the cursor-driven
      pagination generator with its rate-limit retry.

    Conventions.  A Python [str] is a [string]; a character is a code point
    below 256, on which [str.lower], [str.isalpha], [str.isascii] and the
    whitespace classes are written out below.  A function that can raise
    returns a [result]; the exceptions are the Python classes the code names.
    Calls that leave the process (HTTP requests, the Slack client,
    [time.sleep]) are recorded as events of a trace, in program order.
    Logging is not modelled: it never changes control flow. *)

From Stdlib Require Import String Ascii List ZArith Bool Lia DecimalString.
Import ListNotations.
Local Open Scope string_scope.
Local Open Scope bool_scope.
Set Warnings "-register-all".

(** ** Python values and exceptions *)

(** Decoded JSON, as [response.json()] returns it. *)
Inductive json : Type :=
| JNull
| JBool (b : bool)
| JNum (z : Z)
| JStr (s : string)
| JArr (items : list json)
| JObj (fields : list (string * json)).

(** What a Slack error response exposes to the handler of
    [SlackApiError]: [e.response["error"]] and [e.response.headers]. *)
Record SlackErrorResponse : Type := {
  error : option string;
  headers : list (string * string)
}.

Inductive exn : Type :=
| AttributeError (msg : string)
| TypeError (msg : string)
| KeyError (msg : string)
| ValueError (msg : string) (arg : option json)
| RequestException (msg : string)
| SlackApiError (response : SlackErrorResponse)
| OSError (msg : string)
| OverflowError (msg : string)
| Exception (msg : string).

Inductive result (A : Type) : Type :=
| Ok (a : A)
| Raise (e : exn).
Arguments Ok {A} a.
Arguments Raise {A} e.

Definition bind {A B : Type} (r : result A) (k : A -> result B) : result B :=
  match r with
  | Ok a => k a
  | Raise e => Raise e
  end.

Notation "x <- r ;; k" := (bind r (fun x => k))
  (at level 61, r at next level, right associativity).

(** ** The [str] methods the code calls *)
Module Str.

Definition code (c : ascii) : nat := nat_of_ascii c.

Definition between (lo hi : nat) (c : ascii) : bool :=
  Nat.leb lo (code c) && Nat.leb (code c) hi.

(** [c.isascii() and c.isalpha()] *)
Definition is_ascii_alpha (c : ascii) : bool :=
  between 65 90 c || between 97 122 c.

Definition is_digit (c : ascii) : bool := between 48 57 c.

(** [str.lower] on one character: A-Z, and the Latin-1 capitals
    U+00C0..U+00DE without the multiplication sign U+00D7. *)
Definition lower_char (c : ascii) : ascii :=
  if between 65 90 c || (between 192 222 c && negb (Nat.eqb (code c) 215))
  then ascii_of_nat (code c + 32)
  else c.

Fixpoint lower (s : string) : string :=
  match s with
  | "" => ""
  | String c t => String (lower_char c) (lower t)
  end.

(** [c in s] for a one-character [c]. *)
Fixpoint contains (c : ascii) (s : string) : bool :=
  match s with
  | "" => false
  | String a t => Ascii.eqb a c || contains c t
  end.

Fixpoint forallb (p : ascii -> bool) (s : string) : bool :=
  match s with
  | "" => true
  | String a t => p a && forallb p t
  end.

(** [s.startswith(p)] *)
Definition startswith (s p : string) : bool := String.prefix p s.

(** [s.lstrip(chars)], [chars] given as a membership test. *)
Fixpoint lstrip (chars : ascii -> bool) (s : string) : string :=
  match s with
  | "" => ""
  | String a t => if chars a then lstrip chars t else s
  end.

(** [s.rstrip(chars)] *)
Fixpoint rstrip (chars : ascii -> bool) (s : string) : string :=
  match s with
  | "" => ""
  | String a t =>
      match rstrip chars t with
      | "" => if chars a then "" else String a ""
      | t' => String a t'
      end
  end.

(** [s.replace(c, "")] for every [c] accepted by [chars]. *)
Fixpoint remove (chars : ascii -> bool) (s : string) : string :=
  match s with
  | "" => ""
  | String a t => if chars a then remove chars t else String a (remove chars t)
  end.

(** [s[:n]] and [s[n:]] *)
Fixpoint take (n : nat) (s : string) : string :=
  match n, s with
  | O, _ => ""
  | S _, "" => ""
  | S n', String a t => String a (take n' t)
  end.

Fixpoint drop (n : nat) (s : string) : string :=
  match n, s with
  | O, _ => s
  | S _, "" => ""
  | S n', String _ t => drop n' t
  end.

(** [s.find(c, start)]: [None] stands for Python's -1. *)
Fixpoint find_from (c : ascii) (start : nat) (s : string) : option nat :=
  match s with
  | "" => None
  | String a t =>
      match start with
      | O => if Ascii.eqb a c then Some O else option_map S (find_from c O t)
      | S start' => option_map S (find_from c start' t)
      end
  end.

Definition find (c : ascii) (s : string) : option nat := find_from c 0 s.

(** [s.partition(c)]: the text before the first [c], whether [c] was
    found, and the text after it; [(s, False, "")] when [c] is absent. *)
Fixpoint partition (c : ascii) (s : string) : string * bool * string :=
  match s with
  | "" => ("", false, "")
  | String a t =>
      if Ascii.eqb a c then ("", true, t)
      else let '(b, found, r) := partition c t in (String a b, found, r)
  end.

(** [s.rpartition(c)]: split at the last [c]; [("", False, s)] when [c]
    is absent. *)
Fixpoint rpartition (c : ascii) (s : string) : string * bool * string :=
  match s with
  | "" => ("", false, "")
  | String a t =>
      let '(b, found, r) := rpartition c t in
      if found then (String a b, true, r)
      else if Ascii.eqb a c then ("", true, t)
      else ("", false, String a t)
  end.

Definition is_empty (s : string) : bool :=
  match s with "" => true | _ => false end.

End Str.

(** ** [urllib.parse.urlparse(url).hostname]

    The standard library's URL splitter, as far as the host name depends on
    it: [urlsplit] up to the network location, and the [hostname] property
    of the result.  [_checknetloc] returns without raising on every string
    of this character range: no code point below 256 has a compatibility
    normalisation containing one of [/?#@:]. *)
Module urllib_parse.
  Import Str.

Section Urlparse.

  (** [_check_bracketed_host]: accepts or rejects the text between the
      brackets of an IP-literal host ([ipaddress.ip_address] and the
      IPvFuture pattern).  Releases before the check was introduced
      accept everything. *)
  Variable check_bracketed_host : string -> bool.

(** [_WHATWG_C0_CONTROL_OR_SPACE] *)
Definition c0_control_or_space (c : ascii) : bool := Nat.leb (code c) 32.

(** [_UNSAFE_URL_BYTES_TO_REMOVE]: tab, carriage return, line feed. *)
Definition unsafe_url_byte (c : ascii) : bool :=
  Nat.eqb (code c) 9 || Nat.eqb (code c) 13 || Nat.eqb (code c) 10.

(** [scheme_chars]: letters, digits and [+-.] *)
Definition scheme_char (c : ascii) : bool :=
  is_ascii_alpha c || is_digit c
  || Ascii.eqb c "+" || Ascii.eqb c "-" || Ascii.eqb c ".".

(** [_splitnetloc(url, start)] *)
Definition _splitnetloc (url : string) (start : nat) : string * string :=
  let delim :=
    fold_left
      (fun delim c =>
         match find_from c start url with
         | Some wdelim => Nat.min delim wdelim
         | None => delim
         end)
      ["/"; "?"; "#"]%char (String.length url) in
  (take (delim - start) (drop start url), drop delim url).

Definition invalid_ipv6 : exn := ValueError "Invalid IPv6 URL" None.

(** [_check_bracketed_netloc(netloc)] *)
Definition _check_bracketed_netloc (netloc : string) : result unit :=
  let '(_, _, hostname_and_port) := rpartition "@" netloc in
  let '(before_bracket, have_open_br, bracketed) :=
    partition "[" hostname_and_port in
  hostname <-
    (if have_open_br then
       if negb (is_empty before_bracket) then Raise invalid_ipv6
       else
         let '(hostname, _, port) := partition "]" bracketed in
         if negb (is_empty port) && negb (startswith port ":")
         then Raise invalid_ipv6
         else Ok hostname
     else
       let '(hostname, _, _) := partition ":" hostname_and_port in
       Ok hostname) ;;
  if check_bracketed_host hostname then Ok tt
  else Raise (ValueError "invalid bracketed host" None).

Record SplitResult : Type := {
    scheme : string;
    netloc : string;
    rest : string   (* path, query and fragment, not split further *)
  }.

(** [urlsplit(url)] with the default [scheme=''], up to the network
    location. *)
Definition urlsplit (url : string) : result SplitResult :=
  let url := lstrip c0_control_or_space url in
  let url := remove unsafe_url_byte url in
  let '(scheme, url) :=
    match find ":" url, url with
    | Some i, String c0 _ =>
        if Nat.ltb 0 i && is_ascii_alpha c0
           && forallb scheme_char (take i url)
        then (lower (take i url), drop (i + 1) url)
        else ("", url)
    | _, _ => ("", url)
    end in
  if String.eqb (take 2 url) "//" then
    let '(netloc, url) := _splitnetloc url 2 in
    if (contains "[" netloc && negb (contains "]" netloc))
       || (contains "]" netloc && negb (contains "[" netloc))
    then Raise invalid_ipv6
    else
      _ <- (if contains "[" netloc && contains "]" netloc
            then _check_bracketed_netloc netloc else Ok tt) ;;
      Ok {| scheme := scheme; netloc := netloc; rest := url |}
  else Ok {| scheme := scheme; netloc := ""; rest := url |}.

(** [urlparse] adds the split of [;params] off the path, which leaves
    the network location alone. *)
Definition urlparse (url : string) : result SplitResult := urlsplit url.

(** The [_hostinfo] property, first component. *)
Definition _hostinfo (r : SplitResult) : string :=
  let '(_, _, hostinfo) := rpartition "@" (netloc r) in
  let '(_, have_open_br, bracketed) := partition "[" hostinfo in
  if have_open_br then
    let '(hostname, _, _) := partition "]" bracketed in hostname
  else
    let '(hostname, _, _) := partition ":" hostinfo in hostname.

(** The [hostname] property: [None] when the host is empty; the zone
    of a scoped address (after [%]) keeps its case. *)
Definition hostname (r : SplitResult) : option string :=
  let hostname := _hostinfo r in
  if is_empty hostname then None
  else
    let '(hostname, percent, zone) := partition "%" hostname in
    Some (lower hostname ++ (if percent then "%" else "") ++ zone).

(** [urlparse(url).hostname] *)
Definition url_hostname (url : string) : result (option string) :=
  parsed_url <- urlparse url ;;
  Ok (hostname parsed_url).

  End Urlparse.
End urllib_parse.

(** ** Falsy values and [dict] access *)
Module Py.

(** [bool(v)] of a decoded JSON value. *)
Definition truthy (v : json) : bool :=
  match v with
  | JNull => false
  | JBool b => b
  | JNum z => negb (Z.eqb z 0)
  | JStr s => negb (Str.is_empty s)
  | JArr items => match items with [] => false | _ => true end
  | JObj fields => match fields with [] => false | _ => true end
  end.

(** [d.get(key)] on a dict kept as its items; a decoded dict has each
    key once. *)
Fixpoint dict_get {V : Type} (key : string) (d : list (string * V)) : option V :=
  match d with
  | [] => None
  | (k, v) :: d' => if String.eqb k key then Some v else dict_get key d'
  end.

(** [key in d] *)
Definition dict_has {V : Type} (key : string) (d : list (string * V)) : bool :=
  match dict_get key d with Some _ => true | None => false end.

(** [sub in s] for strings. *)
Definition substring_of (sub s : string) : bool :=
  match String.index 0 sub s with Some _ => true | None => false end.

(** [str(n)] of an [int]. *)
Definition str_of_int (n : Z) : string :=
  NilZero.string_of_int (Z.to_int n).

End Py.

(** ** [src/github/github_api_handler.py] *)
Module github_api_handler.
  Import Str Py.

(** *** The [requests] library, as the handler sees it *)

Record Request : Type := {
    method : string;
    url : string;
    req_headers : list (string * string);
    req_json : option json
  }.

(** A received response: [status_code], [reason], [url], and what
    [response.json()] gives, the decoded body or the decoding error's
    message. *)
Record Response : Type := {
    status_code : Z;
    reason : string;
    resp_url : string;
    body : string + json
  }.

(** [requests.get] and [requests.post] either raise a
    [RequestException] (no response was received) or return one. *)
Inductive http_result : Type :=
  | NoResponse (msg : string)
  | Responded (r : Response).

(** A computation that sends requests: the requests sent, in order, and
    its result. *)
Definition io (A : Type) : Type := list Request * result A.

Definition io_ret {A : Type} (a : A) : io A := ([], Ok a).
Definition io_raise {A : Type} (e : exn) : io A := ([], Raise e).
Definition io_lift {A : Type} (r : result A) : io A := ([], r).

Definition io_bind {A B : Type} (m : io A) (k : A -> io B) : io B :=
  match m with
  | (sent, Ok a) => let '(sent', r) := k a in ((sent ++ sent')%list, r)
  | (sent, Raise e) => (sent, Raise e)
  end.

Notation "x <~ m ;; k" := (io_bind m (fun x => k))
  (at level 61, m at next level, right associativity).

(** [try: body except requests.exceptions.RequestException as e:
    raise requests.exceptions.RequestException(f"{prefix}{str(e)}")] *)
Definition rewrap {A : Type} (prefix : string) (m : io A) : io A :=
  match m with
  | (sent, Raise (RequestException msg)) =>
      (sent, Raise (RequestException (prefix ++ msg)))
  | _ => m
  end.

(** [response.raise_for_status()]: [HTTPError], a [RequestException],
    for the statuses 400 to 599. *)
Definition raise_for_status (r : Response) : result unit :=
  let text kind :=
    str_of_int (status_code r) ++ kind ++ reason r
    ++ " for url: " ++ resp_url r in
  if Z.leb 400 (status_code r) && Z.ltb (status_code r) 500
  then Raise (RequestException (text " Client Error: "))
  else if Z.leb 500 (status_code r) && Z.ltb (status_code r) 600
  then Raise (RequestException (text " Server Error: "))
  else Ok tt.

(** [response.json()]: [requests.exceptions.JSONDecodeError] is a
    [RequestException]. *)
Definition response_json (r : Response) : result json :=
  match body r with
  | inl msg => Raise (RequestException msg)
  | inr v => Ok v
  end.

Definition no_attribute_get : exn :=
  AttributeError "object has no attribute 'get'".

Record GitHubAPIHandler : Type := {
    base_url : string;
    token : string;
    api_url : string;
    graphql_url : string;
    headers : list (string * string);
    graphql_headers : list (string * string);
    username : json
  }.

(** [_normalize_url] *)
Definition _normalize_url (url : string) : string :=
  let url :=
    if negb (startswith url "http://" || startswith url "https://")
    then "https://" ++ url
    else url in
  rstrip (Ascii.eqb "/") url.

(** The request of [_get_authenticated_user]:
    [requests.get(f'{self.api_url}/user', headers=self.headers)] *)
Definition user_request (api_url : string)
    (headers : list (string * string)) : Request :=
  {| method := "GET"; url := api_url ++ "/user";
     req_headers := headers; req_json := None |}.

(** The request of [make_graphql_request]: the payload holds the query
    and, when [variables] is truthy, the variables. *)
Definition graphql_request (self : GitHubAPIHandler) (query : string)
    (variables : option json) : Request :=
  let payload :=
    ("query", JStr query)
    :: match variables with
       | Some v => if truthy v then [("variables", v)] else []
       | None => []
       end in
  {| method := "POST"; url := graphql_url self;
     req_headers := graphql_headers self;
     req_json := Some (JObj payload) |}.

Section Handler.

  Variable check_bracketed_host : string -> bool.

  (** The remote side: the answer to each request. *)
  Variable network : Request -> http_result.

Definition send (rq : Request) : io Response :=
  match network rq with
  | NoResponse msg => ([rq], Raise (RequestException msg))
  | Responded r => ([rq], Ok r)
  end.

(** [urlparse(self.base_url).hostname.lower()] *)
Definition lowered_hostname (base_url : string) : result string :=
  hostname <- urllib_parse.url_hostname check_bracketed_host base_url ;;
  match hostname with
  | None =>
      Raise (AttributeError "'NoneType' object has no attribute 'lower'")
  | Some hostname => Ok (lower hostname)
  end.

(** [_determine_api_url], reading [self.base_url] *)
Definition _determine_api_url (base_url : string) : result string :=
  hostname <- lowered_hostname base_url ;;
  if String.eqb hostname "github.com" then Ok "https://api.github.com"
  else Ok (base_url ++ "/api/v3").

(** [_determine_graphql_url], reading [self.base_url] *)
Definition _determine_graphql_url (base_url : string) : result string :=
  hostname <- lowered_hostname base_url ;;
  if String.eqb hostname "github.com"
  then Ok "https://api.github.com/graphql"
  else Ok (base_url ++ "/api/graphql").

(** [_get_authenticated_user], reading [self.api_url] and
    [self.headers] *)
Definition _get_authenticated_user
    (api_url : string) (headers : list (string * string)) : io json :=
  rewrap "Failed to fetch user data: "
    (response <~ send (user_request api_url headers) ;;
     _ <~ io_lift (raise_for_status response) ;;
     user_data <~ io_lift (response_json response) ;;
     match user_data with
     | JObj fields =>
         let username := match dict_get "login" fields with
                         | Some v => v
                         | None => JNull
                         end in
         if negb (truthy username)
         then io_raise
                (ValueError "Unable to retrieve username from API response"
                   None)
         else io_ret username
     | _ => io_raise no_attribute_get
     end).

(** [__init__] *)
Definition __init__ (base_url token : string) : io GitHubAPIHandler :=
  let base_url := _normalize_url base_url in
  api_url <~ io_lift (_determine_api_url base_url) ;;
  graphql_url <~ io_lift (_determine_graphql_url base_url) ;;
  let headers :=
    [("Authorization", "Bearer " ++ token);
     ("Accept", "application/vnd.github.v3+json")] in
  let graphql_headers :=
    [("Authorization", "Bearer " ++ token);
     ("Accept", "application/vnd.github+json")] in
  username <~ _get_authenticated_user api_url headers ;;
  io_ret {| base_url := base_url; token := token; api_url := api_url;
            graphql_url := graphql_url; headers := headers;
            graphql_headers := graphql_headers; username := username |}.

(** ['errors' in result] *)
Definition errors_in (envelope : json) : result bool :=
  match envelope with
  | JObj fields => Ok (dict_has "errors" fields)
  | JArr items =>
      Ok (existsb (fun v => match v with
                            | JStr s => String.eqb s "errors"
                            | _ => false
                            end) items)
  | JStr s => Ok (substring_of "errors" s)
  | _ => Raise (TypeError "argument is not iterable")
  end.

(** [make_graphql_request] *)
Definition make_graphql_request
    (self : GitHubAPIHandler) (query : string) (variables : option json)
  : io json :=
  rewrap "GraphQL API request failed: "
    (response <~ send (graphql_request self query variables) ;;
     _ <~ io_lift (raise_for_status response) ;;
     result <~ io_lift (response_json response) ;;
     has_errors <~ io_lift (errors_in result) ;;
     match result with
     | JObj fields =>
         if has_errors
         then io_raise (ValueError "GraphQL query failed: "
                          (dict_get "errors" fields))
         else io_ret match dict_get "data" fields with
                     | Some data => data
                     | None => JObj []
                     end
     | _ =>
         if has_errors
         then io_raise (TypeError "indices must be integers")
         else io_raise no_attribute_get
     end).

  End Handler.
End github_api_handler.

(** ** [src/users_dump_slack.py] *)
Module users_dump_slack.
  Import Str Py.

(** *** [int(text)] *)

(** Whitespace [int] strips: tab to carriage return, space, and below
    256 the next-line and no-break-space characters. *)
Definition is_space (c : ascii) : bool :=
  between 9 13 c || Nat.eqb (code c) 32
  || Nat.eqb (code c) 133 || Nat.eqb (code c) 160.

(** Digits separated by single underscores; [prev_digit] tells whether
    the character before was a digit. *)
Fixpoint digits_ok (prev_digit : bool) (s : string) : bool :=
  match s with
  | "" => prev_digit
  | String c t =>
      if is_digit c then digits_ok true t
      else if Ascii.eqb c "_" then prev_digit && digits_ok false t
      else false
  end.

Fixpoint digits_value (acc : Z) (s : string) : Z :=
  match s with
  | "" => acc
  | String c t =>
      if is_digit c
      then digits_value (10 * acc + Z.of_nat (code c - 48)) t
      else digits_value acc t
  end.

Fixpoint count_digits (s : string) : nat :=
  match s with
  | "" => 0
  | String c t => (if is_digit c then 1 else 0) + count_digits t
  end.

(** [sys.get_int_max_str_digits()], at its default. *)
Definition int_max_str_digits : nat := 4300.

Definition invalid_literal : exn :=
  ValueError "invalid literal for int() with base 10" None.

(** [int(text)] in base 10: surrounding whitespace, an optional sign,
    digits. *)
Definition int_of_str (text : string) : result Z :=
  let s := rstrip is_space (lstrip is_space text) in
  let '(negative, digits) :=
    match s with
    | String "-" t => (true, t)
    | String "+" t => (false, t)
    | _ => (false, s)
    end in
  if negb (digits_ok false digits) then Raise invalid_literal
  else if Nat.ltb int_max_str_digits (count_digits digits)
  then Raise (ValueError "Exceeds the limit for integer string conversion"
                None)
  else Ok (if negative then - digits_value 0 digits
           else digits_value 0 digits)%Z.

(** *** The Slack client, as [fetch_all_users] sees it *)

(** A record of the workspace: an open mapping. *)
Definition Member : Type := json.

Record ResponseMetadata : Type := {
    next_cursor : option string
  }.

(** A successful [users.list] response: [resp["members"]] and
    [resp.get("response_metadata")]. *)
Record SlackResponse : Type := {
    members : list Member;
    response_metadata : option ResponseMetadata
  }.

(** [client.users_list(...)] returns a response or raises. *)
Inductive call_result : Type :=
  | Returns (resp : SlackResponse)
  | Raises (e : exn).

(** What the generator does, in order: a [users_list] call with its
    [limit] and [cursor], a record handed to the consumer, a
    [time.sleep] that returned. *)
Inductive event : Type :=
  | Call (limit : Z) (cursor : option string)
  | Yield (member : Member)
  | Sleep (seconds : Z).

(** How the generator ends: it returns (the sequence is exhausted), an
    exception leaves it, or the bound on loop iterations was reached
    with the loop still running. *)
Inductive outcome : Type :=
  | Exhausted
  | Failed (e : exn)
  | Running.

(** [resp.get("response_metadata", {}).get("next_cursor")] *)
Definition read_cursor (resp : SlackResponse) : option string :=
  match response_metadata resp with
  | Some metadata => next_cursor metadata
  | None => None
  end.

(** [not cursor] *)
Definition cursor_falsy (cursor : option string) : bool :=
  match cursor with
  | None => true
  | Some c => is_empty c
  end.

(** [int(e.response.headers.get("Retry-After", 1))] *)
Definition retry_delay (r : SlackErrorResponse) : result Z :=
  match dict_get "Retry-After" (headers r) with
  | Some text => int_of_str text
  | None => Ok 1%Z
  end.

(** [time.sleep] as documented: a negative duration is refused. *)
Definition sleep_nonnegative (seconds : Z) : result unit :=
  if Z.ltb seconds 0
  then Raise (ValueError "sleep length must be non-negative" None)
  else Ok tt.

Section Generator.

  (** The client and the remote workspace behind it: a state that each
      call may change. *)
  Variable Client : Type.
  Variable users_list :
    Client -> Z -> option string -> Client * call_result.

  (** [time.sleep]: returns once the duration has elapsed, or raises
      for a duration the platform refuses (a negative one, one too
      long for its clock). *)
  Variable time_sleep : Z -> result unit.

(** The [while True] loop of [fetch_all_users], entered with the
    current [cursor]; [fuel] bounds the number of iterations. *)
Fixpoint fetch_loop (fuel : nat) (client : Client) (batch_size : Z)
    (cursor : option string) : list event * outcome :=
  match fuel with
  | O => ([], Running)
  | S fuel' =>
      let '(client, r) := users_list client batch_size cursor in
      match r with
      | Returns resp =>
          let page := Call batch_size cursor :: map Yield (members resp) in
          let cursor := read_cursor resp in
          if cursor_falsy cursor then (page, Exhausted)
          else
            let '(later, out) :=
              fetch_loop fuel' client batch_size cursor in
            (page ++ later, out)%list
      | Raises (SlackApiError response) =>
          if match error response with
             | Some e => String.eqb e "ratelimited"
             | None => false
             end
          then
            match retry_delay response with
            | Raise e => ([Call batch_size cursor], Failed e)
            | Ok delay =>
                match time_sleep delay with
                | Raise e => ([Call batch_size cursor], Failed e)
                | Ok _ =>
                    let '(later, out) :=
                      fetch_loop fuel' client batch_size cursor in
                    (Call batch_size cursor :: Sleep delay :: later, out)
                end
            end
          else ([Call batch_size cursor], Failed (SlackApiError response))
      | Raises e => ([Call batch_size cursor], Failed e)
      end
  end.

(** [fetch_all_users(client, batch_size)]: [cursor = None], then the
    loop. *)
Definition fetch_all_users (fuel : nat) (client : Client)
    (batch_size : Z) : list event * outcome :=
  fetch_loop fuel client batch_size None.

End Generator.

(** *** Reading a trace *)

Fixpoint yielded (tr : list event) : list Member :=
  match tr with
  | [] => []
  | Yield m :: tr' => m :: yielded tr'
  | _ :: tr' => yielded tr'
  end.

Fixpoint requested (tr : list event) : list (option string) :=
  match tr with
  | [] => []
  | Call _ cursor :: tr' => cursor :: requested tr'
  | _ :: tr' => requested tr'
  end.

Fixpoint slept (tr : list event) : list Z :=
  match tr with
  | [] => []
  | Sleep d :: tr' => d :: slept tr'
  | _ :: tr' => slept tr'
  end.

(** *** A simulated service

      The service answers the successive calls with the successive entries
      of a script, whatever the request; the requests are read off the
      trace.  A call past the end of the script fails. *)
Definition Script : Type := list call_result.

Definition scripted (script : Script) (limit : Z) (cursor : option string)
  : Script * call_result :=
  match script with
  | [] => ([], Raises (Exception "connection closed"))
  | r :: script' => (script', r)
  end.

(** A page with records [ms] and next cursor [c]. *)
Definition page_with_cursor (p : list Member * string) : call_result :=
  Returns {| members := fst p;
             response_metadata := Some {| next_cursor := Some (snd p) |} |}.

(** A rate-limited failure with the given headers. *)
Definition ratelimited (hs : list (string * string)) : call_result :=
  Raises (SlackApiError {| error := Some "ratelimited"; headers := hs |}).

(** The trace of [k] pages served in order from cursor [cursor]. *)
Fixpoint pages_trace (limit : Z) (cursor : option string)
    (pages : list (list Member * string)) : list event :=
  match pages with
  | [] => []
  | p :: pages' =>
      (Call limit cursor :: map Yield (fst p))
      ++ pages_trace limit (Some (snd p)) pages'
  end%list.

(** The cursor in force after the pages [pages], starting from
    [cursor]. *)
Definition cursor_after (cursor : option string)
    (pages : list (list Member * string)) : option string :=
  fold_left (fun _ p => Some (snd p)) pages cursor.

End users_dump_slack.

(** * Properties *)

(** ** Strings *)
Section StrFacts.
  Import Str.

Lemma prefix_split (p s : string) :
  String.prefix p s = true -> exists r, s = p ++ r.
Proof.
  revert s; induction p as [|a p IH]; intros s H.
  - now exists s.
  - destruct s as [|b s]; [discriminate|]. simpl in H.
    destruct (Ascii.ascii_dec a b) as [->|]; [|discriminate].
    destruct (IH _ H) as [r ->]. now exists r.
Qed.

Lemma prefix_app (p r : string) : String.prefix p (p ++ r) = true.
Proof.
  induction p as [|a p IH]; simpl.
  - now destruct r.
  - destruct (Ascii.ascii_dec a a); [assumption|congruence].
Qed.

Lemma append_nil_r (s : string) : s ++ "" = s.
Proof. induction s; simpl; congruence. Qed.

Lemma append_assoc (a b c : string) : (a ++ b) ++ c = a ++ b ++ c.
Proof. induction a; simpl; congruence. Qed.

Lemma length_app (a b : string) :
  String.length (a ++ b) = String.length a + String.length b.
Proof. induction a; simpl; congruence. Qed.

Variable chars : ascii -> bool.

Lemma rstrip_empty_iff (s : string) :
  rstrip chars s = "" <-> forallb chars s = true.
Proof.
  induction s as [|a s IH]; simpl; [tauto|].
  destruct (rstrip chars s) eqn:E.
  - destruct (chars a); simpl.
    + split; intros _; [now apply IH | reflexivity].
    + split; discriminate.
  - split; [discriminate|]. intros H.
    apply andb_true_iff in H as [_ H]. apply IH in H. discriminate.
Qed.

Lemma rstrip_idem (s : string) :
  rstrip chars (rstrip chars s) = rstrip chars s.
Proof.
  induction s as [|a s IH]; simpl; [reflexivity|].
  destruct (rstrip chars s) as [|b t] eqn:E.
  - destruct (chars a) eqn:Ea; simpl; [reflexivity | now rewrite Ea].
  - change (rstrip chars (String a (String b t))) with
      (match rstrip chars (String b t) with
       | "" => if chars a then "" else String a ""
       | t' => String a t'
       end).
    now rewrite IH.
Qed.

Lemma rstrip_app_keep (a b : string) :
  rstrip chars b <> "" -> rstrip chars (a ++ b) = a ++ rstrip chars b.
Proof.
  intros Hb. induction a as [|c a IH]; simpl; [reflexivity|].
  rewrite IH. destruct (a ++ rstrip chars b) eqn:E; [|reflexivity].
  destruct a; simpl in E; [contradiction | discriminate].
Qed.

Lemma rstrip_app_all (a b : string) :
  forallb chars b = true -> rstrip chars (a ++ b) = rstrip chars a.
Proof.
  intros Hb. induction a as [|c a IH]; simpl.
  - now apply rstrip_empty_iff.
  - now rewrite IH.
Qed.



End StrFacts.

(** ** [_normalize_url] *)
Section Normalize.
  Import Str github_api_handler.

Definition has_scheme (url : string) : bool :=
  startswith url "http://" || startswith url "https://".

Definition slash : ascii -> bool := Ascii.eqb "/".

Lemma normalize_unfold (url : string) :
  _normalize_url url =
  rstrip slash (if has_scheme url then url else "https://" ++ url).
Proof.
  unfold _normalize_url, has_scheme, slash. now destruct (_ || _).
Qed.

(** After an initial scheme, either the rest is only slashes and the
    result is the bare scheme, or the scheme prefix survives. *)
Lemma rstrip_after_prefix (p r : string) :
  rstrip slash r = "" /\ rstrip slash (p ++ r) = rstrip slash p
  \/ rstrip slash r <> "" /\ rstrip slash (p ++ r) = p ++ rstrip slash r.
Proof.
  destruct (rstrip slash r) eqn:E.
  - left. split; [reflexivity|].
    apply rstrip_app_all. now apply rstrip_empty_iff.
  - right. split; [discriminate|]. rewrite <- E.
    apply rstrip_app_keep. rewrite E. discriminate.
Qed.

Lemma has_scheme_app_http (r : string) : has_scheme ("http://" ++ r) = true.
Proof. unfold has_scheme, startswith. now rewrite prefix_app. Qed.

Lemma has_scheme_app_https (r : string) : has_scheme ("https://" ++ r) = true.
Proof.
  unfold has_scheme, startswith. rewrite (prefix_app "https://").
  apply orb_true_r.
Qed.

Lemma has_scheme_split (url : string) :
  has_scheme url = true ->
  exists r, url = "http://" ++ r \/ url = "https://" ++ r.
Proof.
  unfold has_scheme, startswith. intros H.
  apply orb_true_iff in H as [H|H]; apply prefix_split in H as [r ->];
    exists r; auto.
Qed.

(** The normalised URL always has one of these two shapes. *)
Lemma normalize_shape (url : string) :
  (_normalize_url url = "http:" \/ _normalize_url url = "https:")
  \/ has_scheme (_normalize_url url) = true.
Proof.
  rewrite normalize_unfold.
  destruct (has_scheme url) eqn:H.
  - apply has_scheme_split in H as [r [-> | ->]].
    + destruct (rstrip_after_prefix "http://" r) as [[_ ->] | [_ ->]];
        [left; left; reflexivity | right; apply has_scheme_app_http].
    + destruct (rstrip_after_prefix "https://" r) as [[_ ->] | [_ ->]];
        [left; right; reflexivity | right; apply has_scheme_app_https].
  - destruct (rstrip_after_prefix "https://" url) as [[_ ->] | [_ ->]];
      [left; right; reflexivity | right; apply has_scheme_app_https].
Qed.



End Normalize.

Section NormalizeClaims.
  Import Str github_api_handler.



End NormalizeClaims.

(** ** Splitting strings *)
Section SplitFacts.
  Import Str.

Lemma contains_app (c : ascii) (a b : string) :
  contains c (a ++ b) = contains c a || contains c b.
Proof.
  induction a as [|x a IH]; simpl; [reflexivity|].
  now rewrite IH, orb_assoc.
Qed.

Lemma partition_absent (c : ascii) (s : string) :
  contains c s = false -> partition c s = (s, false, "").
Proof.
  induction s as [|a s IH]; simpl; [reflexivity|]. intros H.
  apply orb_false_iff in H as [Ha Hs]. now rewrite Ha, (IH Hs).
Qed.

Lemma partition_first (c : ascii) (a b : string) :
  contains c a = false -> partition c (a ++ String c b) = (a, true, b).
Proof.
  induction a as [|x a IH]; simpl.
  - now rewrite Ascii.eqb_refl.
  - intros H. apply orb_false_iff in H as [Hx Ha]. now rewrite Hx, (IH Ha).
Qed.

Lemma rpartition_absent (c : ascii) (s : string) :
  contains c s = false -> rpartition c s = ("", false, s).
Proof.
  induction s as [|a s IH]; simpl; [reflexivity|]. intros H.
  apply orb_false_iff in H as [Ha Hs]. now rewrite (IH Hs), Ha.
Qed.

Lemma find_from_absent (c : ascii) (s : string) (start : nat) :
  contains c s = false -> find_from c start s = None.
Proof.
  revert start; induction s as [|a s IH]; simpl; intros start H;
    [reflexivity|].
  apply orb_false_iff in H as [Ha Hs].
  destruct start; [rewrite Ha|]; now rewrite (IH _ Hs).
Qed.

Lemma take_all (s : string) : take (String.length s) s = s.
Proof. induction s; simpl; congruence. Qed.

Lemma drop_all (s : string) : drop (String.length s) s = "".
Proof. induction s; simpl; congruence. Qed.

Lemma remove_none (chars : ascii -> bool) (s : string) :
  forallb (fun c => negb (chars c)) s = true -> remove chars s = s.
Proof.
  induction s as [|a s IH]; simpl; [reflexivity|]. intros H.
  apply andb_true_iff in H as [Ha Hs].
  apply negb_true_iff in Ha. now rewrite Ha, (IH Hs).
Qed.

Lemma forallb_app (p : ascii -> bool) (a b : string) :
  forallb p (a ++ b) = forallb p a && forallb p b.
Proof.
  induction a as [|x a IH]; simpl; [reflexivity|].
  now rewrite IH, andb_assoc.
Qed.

Lemma forallb_impl (p q : ascii -> bool) (s : string) :
  (forall c, p c = true -> q c = true) ->
  forallb p s = true -> forallb q s = true.
Proof.
  intros Hpq. induction s as [|a s IH]; simpl; [reflexivity|]. intros H.
  apply andb_true_iff in H as [Ha Hs]. now rewrite (Hpq _ Ha), (IH Hs).
Qed.

Lemma forallb_absent (p : ascii -> bool) (c : ascii) (s : string) :
  p c = false -> forallb p s = true -> contains c s = false.
Proof.
  intros Hc. induction s as [|a s IH]; simpl; [reflexivity|]. intros H.
  apply andb_true_iff in H as [Ha Hs]. rewrite (IH Hs), orb_false_r.
  destruct (Ascii.eqb_spec a c) as [->|]; congruence.
Qed.

Lemma forallb_lower (p : ascii -> bool) (s : string) :
  forallb p (lower s) = forallb (fun c => p (lower_char c)) s.
Proof. induction s as [|a s IH]; simpl; congruence. Qed.

Lemma all_ascii (P : ascii -> Prop) :
  (forall b0 b1 b2 b3 b4 b5 b6 b7, P (Ascii b0 b1 b2 b3 b4 b5 b6 b7)) ->
  forall c, P c.
Proof. intros H [b0 b1 b2 b3 b4 b5 b6 b7]. apply H. Qed.

Lemma lower_char_idem (c : ascii) : lower_char (lower_char c) = lower_char c.
Proof.
  revert c. apply all_ascii.
  intros [] [] [] [] [] [] [] []; vm_compute; reflexivity.
Qed.

Lemma lower_idem (s : string) : lower (lower s) = lower s.
Proof.
  induction s as [|a s IH]; simpl; [reflexivity|].
  now rewrite lower_char_idem, IH.
Qed.

Lemma lower_app (a b : string) : lower (a ++ b) = lower a ++ lower b.
Proof. induction a; simpl; congruence. Qed.

Lemma contains_lower_percent (s : string) :
  contains "%" (lower s) = contains "%" s.
Proof.
  induction s as [|a s IH]; simpl; [reflexivity|]. rewrite IH. f_equal.
  revert a. apply all_ascii.
  intros [] [] [] [] [] [] [] []; vm_compute; reflexivity.
Qed.

End SplitFacts.

(** ** Host names *)
Section HostFacts.
  Import Str urllib_parse.

Variable check : string -> bool.

Lemma partition_not_found (c : ascii) (s a z : string) :
  partition c s = (a, false, z) -> a = s /\ z = "".
Proof.
  revert a z; induction s as [|x s IH]; simpl; intros a z H.
  - now inversion H.
  - destruct (Ascii.eqb x c); [discriminate|].
    destruct (partition c s) as [[b found] r].
    inversion H; subst. destruct (IH b z eq_refl) as [-> ->]. now split.
Qed.

(** A parsed host name is already in the form the code compares: if
    lowercasing it gives ["github.com"], it is ["github.com"]. *)
Lemma hostname_github (r : SplitResult) (h : string) :
  hostname r = Some h -> lower h = "github.com" -> h = "github.com".
Proof.
  unfold hostname. destruct (is_empty (_hostinfo r)); [discriminate|].
  destruct (partition "%" (_hostinfo r)) as [[a [|]] zone] eqn:E;
    intros [= <-] H.
  - exfalso. apply (f_equal (contains "%")) in H.
    rewrite contains_lower_percent, contains_app in H. simpl in H.
    rewrite orb_true_r in H. discriminate H.
  - apply partition_not_found in E as [-> ->]. simpl in *.
    rewrite append_nil_r in *. now rewrite lower_idem in H.
Qed.

(** Characters of a network location that [urlsplit] keeps and that do
    not delimit it. *)
Definition netloc_plain (c : ascii) : bool :=
  negb (unsafe_url_byte c)
  && negb (contains c "/?#@[]").

(** Characters of a host name written without user, port, brackets or
    zone. *)
Definition host_plain (c : ascii) : bool :=
  netloc_plain c && negb (contains c ":%").

Lemma netloc_plain_absent (c : ascii) (s : string) :
  contains c "/?#@[]" = true ->
  forallb netloc_plain s = true -> contains c s = false.
Proof.
  intros Hc. apply forallb_absent. unfold netloc_plain.
  rewrite Hc. apply andb_false_r.
Qed.

Lemma splitnetloc_plain (n : string) :
  forallb netloc_plain n = true -> _splitnetloc ("//" ++ n) 2 = (n, "").
Proof.
  intros H. unfold _splitnetloc. simpl.
  rewrite !find_from_absent by (apply netloc_plain_absent; auto).
  simpl. rewrite Nat.sub_0_r, take_all, drop_all. reflexivity.
Qed.

Lemma urlsplit_plain (sch n : string) :
  sch = "http" \/ sch = "https" ->
  forallb netloc_plain n = true ->
  urlsplit check (sch ++ "://" ++ n)
  = Ok {| scheme := sch; netloc := n; rest := "" |}.
Proof.
  intros Hs H.
  assert (Hr : remove unsafe_url_byte n = n).
  { apply remove_none. revert H. apply forallb_impl.
    unfold netloc_plain. intros c Hc.
    now apply andb_true_iff in Hc as [Hc _]. }
  assert (Hb1 : contains "[" n = false) by (apply netloc_plain_absent; auto).
  assert (Hb2 : contains "]" n = false) by (apply netloc_plain_absent; auto).
  unfold urlsplit.
  destruct Hs as [-> | ->].
  - change (remove unsafe_url_byte (lstrip c0_control_or_space
                                      ("http" ++ "://" ++ n)))
      with ("http://" ++ remove unsafe_url_byte n).
    rewrite Hr.
    change (find ":" ("http://" ++ n)) with (Some 4).
    change ("http://" ++ n) with (String "h" (append "ttp://" n)).
    cbv iota beta.
    change (drop (4 + 1) _) with ("//" ++ n).
    change (take 4 _) with "http".
    set (cond := _ && _ && _). vm_compute in cond. subst cond.
    cbv iota beta.
    change (take 2 ("//" ++ n)) with "//".
    change (String.eqb "//" "//") with true. cbv iota.
    rewrite splitnetloc_plain by assumption.
    change (lower "http") with "http".
    now rewrite Hb1, Hb2.
  - change (remove unsafe_url_byte (lstrip c0_control_or_space
                                      ("https" ++ "://" ++ n)))
      with ("https://" ++ remove unsafe_url_byte n).
    rewrite Hr.
    change (find ":" ("https://" ++ n)) with (Some 5).
    change ("https://" ++ n) with (String "h" (append "ttps://" n)).
    cbv iota beta.
    change (drop (5 + 1) _) with ("//" ++ n).
    change (take 5 _) with "https".
    set (cond := _ && _ && _). vm_compute in cond. subst cond.
    cbv iota beta.
    change (take 2 ("//" ++ n)) with "//".
    change (String.eqb "//" "//") with true. cbv iota.
    rewrite splitnetloc_plain by assumption.
    change (lower "https") with "https".
    now rewrite Hb1, Hb2.
Qed.

End HostFacts.

(** ** Endpoint resolution *)
Section Resolve.
  Import Str urllib_parse github_api_handler.

Variable check : string -> bool.

Definition public_rest_root : string := "https://api.github.com".
Definition public_graph_root : string := "https://api.github.com/graphql".

(** [n] slashes. *)
Fixpoint slashes (n : nat) : string :=
  match n with
  | O => ""
  | S n' => String "/" (slashes n')
  end.

Lemma slashes_all (n : nat) : forallb slash (slashes n) = true.
Proof. induction n; simpl; auto. Qed.

Lemma normalize_trailing (url : string) (n : nat) :
  has_scheme url = true ->
  _normalize_url (url ++ slashes n) = _normalize_url url.
Proof.
  intros H. rewrite !normalize_unfold, H.
  apply has_scheme_split in H as [r [-> | ->]].
  - rewrite append_assoc, has_scheme_app_http, <- append_assoc.
    apply rstrip_app_all, slashes_all.
  - rewrite append_assoc, has_scheme_app_https, <- append_assoc.
    apply rstrip_app_all, slashes_all.
Qed.

Lemma normalize_bare_github (n : nat) :
  _normalize_url ("github.com" ++ slashes n) = "https://github.com".
Proof.
  rewrite normalize_unfold.
  change (has_scheme ("github.com" ++ slashes n)) with false. cbv iota.
  rewrite <- (append_assoc "https://" "github.com").
  now rewrite (rstrip_app_all slash _ _ (slashes_all n)).
Qed.

Lemma resolve_by_hostname (base h : string) :
  url_hostname check base = Ok (Some h) ->
  _determine_api_url check base
  = (if String.eqb (lower h) "github.com" then Ok public_rest_root
     else Ok (base ++ "/api/v3"))
  /\ _determine_graphql_url check base
     = (if String.eqb (lower h) "github.com" then Ok public_graph_root
        else Ok (base ++ "/api/graphql")).
Proof.
  intros H. unfold _determine_api_url, _determine_graphql_url,
    lowered_hostname. rewrite H. simpl. split; reflexivity.
Qed.

Lemma url_hostname_github (base h : string) :
  url_hostname check base = Ok (Some h) ->
  lower h = "github.com" -> h = "github.com".
Proof.
  unfold url_hostname. destruct (urlparse check base) as [r|e]; simpl;
    [|discriminate].
  intros [= H]. now apply hostname_github with r.
Qed.

Lemma rstrip_none (chars : ascii -> bool) (s : string) :
  forallb (fun c => negb (chars c)) s = true -> rstrip chars s = s.
Proof.
  induction s as [|a s IH]; simpl; [reflexivity|]. intros H.
  apply andb_true_iff in H as [Ha Hs]. rewrite (IH Hs).
  apply negb_true_iff in Ha. rewrite Ha. now destruct s.
Qed.

Lemma netloc_plain_not_slash (s : string) :
  forallb netloc_plain s = true ->
  forallb (fun c => negb (slash c)) s = true.
Proof.
  apply forallb_impl. intros [[] [] [] [] [] [] [] []];
    vm_compute; intros E; first [reflexivity | discriminate E].
Qed.

Lemma digit_plain (s : string) :
  forallb is_digit s = true -> forallb netloc_plain s = true.
Proof.
  apply forallb_impl. intros [[] [] [] [] [] [] [] []];
    vm_compute; intros E; first [reflexivity | discriminate E].
Qed.

Lemma host_plain_netloc (s : string) :
  forallb host_plain s = true -> forallb netloc_plain s = true.
Proof.
  apply forallb_impl. unfold host_plain. intros c H.
  now apply andb_true_iff in H as [H _].
Qed.

Lemma github_spelling_plain (h : string) :
  lower h = "github.com" -> forallb host_plain h = true /\ h <> "".
Proof.
  intros H. split.
  - apply forallb_impl
      with (p := fun c => contains (lower_char c) "github.com").
    + intros [[] [] [] [] [] [] [] []];
    vm_compute; intros E; first [reflexivity | discriminate E].
    + pose proof (forallb_lower (fun x => contains x "github.com") h) as E.
      cbv beta in E. rewrite <- E, H. reflexivity.
  - intros ->. discriminate H.
Qed.

(** The host name of [scheme://host] and of [scheme://host:port]. *)
Lemma url_hostname_plain (sch h t : string) :
  sch = "http" \/ sch = "https" ->
  h <> "" -> forallb host_plain h = true ->
  t = "" \/ (exists port, t = String ":" port
                          /\ forallb netloc_plain port = true) ->
  url_hostname check (sch ++ "://" ++ h ++ t) = Ok (Some (lower h)).
Proof.
  intros Hs Hne Hh Ht.
  assert (Hn : forallb netloc_plain (h ++ t) = true).
  { rewrite forallb_app, (host_plain_netloc _ Hh).
    destruct Ht as [-> | [port [-> Hp]]]; simpl; [reflexivity|].
    now rewrite Hp. }
  assert (Hc : contains ":" h = false /\ contains "%" h = false).
  { split; apply (forallb_absent host_plain); try assumption;
      unfold host_plain; apply andb_false_r. }
  destruct Hc as [Hcolon Hpct].
  unfold url_hostname, urlparse. rewrite urlsplit_plain by assumption.
  simpl. f_equal. unfold hostname, _hostinfo. simpl netloc.
  rewrite rpartition_absent by (apply netloc_plain_absent; auto).
  rewrite (partition_absent "[") by (apply netloc_plain_absent; auto).
  assert (Hp : exists found r, partition ":" (h ++ t) = (h, found, r)).
  { destruct Ht as [-> | [port [-> _]]].
    - rewrite append_nil_r, partition_absent by assumption. eauto.
    - rewrite partition_first by assumption. eauto. }
  destruct Hp as [found [r ->]].
  destruct h as [|a h']; [contradiction|]. cbv iota beta. simpl is_empty.
  cbv iota. rewrite partition_absent by assumption.
  simpl. now rewrite append_nil_r.
Qed.

Lemma normalize_plain (sch n : string) :
  sch = "http" \/ sch = "https" ->
  n <> "" -> forallb netloc_plain n = true ->
  _normalize_url (sch ++ "://" ++ n) = sch ++ "://" ++ n.
Proof.
  intros Hs Hne Hn. rewrite normalize_unfold.
  assert (Hr : rstrip slash n = n)
    by now apply rstrip_none, netloc_plain_not_slash.
  destruct Hs as [-> | ->].
  - change ("http" ++ "://" ++ n) with ("http://" ++ n).
    rewrite has_scheme_app_http, rstrip_app_keep; rewrite Hr; auto.
  - change ("https" ++ "://" ++ n) with ("https://" ++ n).
    rewrite has_scheme_app_https, rstrip_app_keep; rewrite Hr; auto.
Qed.

End Resolve.

Section ResolveClaims.
  Import Str urllib_parse github_api_handler.

(** C1: whenever the host name of the normalised base URL is
    ["github.com"], [_determine_api_url] returns ["https://api.github.com"]
    and [_determine_graphql_url] returns ["https://api.github.com/graphql"].
    Both are functions of the base URL alone (no response is an argument),
    and the test reads only the parsed host name.  This covers
    ["github.com"] written without a scheme, with ["http://"] or with
    ["https://"], followed by any number of slashes. *)
Theorem public_cloud_roots (check : string -> bool) (url : string) :
  url_hostname check (_normalize_url url) = Ok (Some "github.com") ->
  (_determine_api_url check (_normalize_url url) = Ok "https://api.github.com"
   /\ _determine_graphql_url check (_normalize_url url)
      = Ok "https://api.github.com/graphql")
  /\ forall (n : nat) (prefix : string),
       In prefix [""; "http://"; "https://"] ->
       url_hostname check (_normalize_url (prefix ++ "github.com" ++ slashes n))
       = Ok (Some "github.com")
       /\ _determine_api_url check
            (_normalize_url (prefix ++ "github.com" ++ slashes n))
          = Ok "https://api.github.com"
       /\ _determine_graphql_url check
            (_normalize_url (prefix ++ "github.com" ++ slashes n))
          = Ok "https://api.github.com/graphql".
Proof.
  intros H. split.
  - destruct (resolve_by_hostname check _ _ H) as [-> ->]. split; reflexivity.
  - intros n prefix [<- | [<- | [<- | []]]].
    + change ("" ++ "github.com" ++ slashes n) with ("github.com" ++ slashes n).
      rewrite normalize_bare_github. repeat split; reflexivity.
    + rewrite <- append_assoc, normalize_trailing by reflexivity.
      repeat split; reflexivity.
    + rewrite <- append_assoc, normalize_trailing by reflexivity.
      repeat split; reflexivity.
Qed.

Lemma public_cloud_roots_witness :
  url_hostname (fun _ => true) (_normalize_url "http://github.com//")
  = Ok (Some "github.com")
  /\ _determine_api_url (fun _ => true) (_normalize_url "http://github.com//")
     = Ok "https://api.github.com"
  /\ _determine_graphql_url (fun _ => true)
       (_normalize_url "http://github.com//")
     = Ok "https://api.github.com/graphql".
Proof.
  split; [reflexivity|].
  apply (public_cloud_roots (fun _ => true) "http://github.com//").
  reflexivity.
Defined.

(** C2: whenever the normalised base URL has a host name other than
    ["github.com"], [_determine_api_url] returns the normalised URL followed
    by ["/api/v3"] and [_determine_graphql_url] returns it followed by
    ["/api/graphql"]. *)
Theorem self_hosted_roots (check : string -> bool) (url h : string) :
  url_hostname check (_normalize_url url) = Ok (Some h) ->
  h <> "github.com" ->
  _determine_api_url check (_normalize_url url)
  = Ok (_normalize_url url ++ "/api/v3")
  /\ _determine_graphql_url check (_normalize_url url)
     = Ok (_normalize_url url ++ "/api/graphql").
Proof.
  intros H Hne.
  destruct (resolve_by_hostname check _ _ H) as [-> ->].
  destruct (String.eqb_spec (lower h) "github.com") as [E|_];
    [|split; reflexivity].
  now apply (url_hostname_github check _ _ H) in E.
Qed.

Lemma self_hosted_roots_witness :
  _normalize_url "github.example.com" = "https://github.example.com"
  /\ _determine_api_url (fun _ => true) (_normalize_url "github.example.com")
     = Ok "https://github.example.com/api/v3"
  /\ _determine_graphql_url (fun _ => true)
       (_normalize_url "github.example.com")
     = Ok "https://github.example.com/api/graphql".
Proof.
  split; [reflexivity|].
  apply (self_hosted_roots (fun _ => true) "github.example.com"
           "github.example.com"); [reflexivity | discriminate].
Defined.

(** C9: endpoint resolution is partial.  The empty base host normalises to
    ["https:"], a URL without host name; [urlparse] gives [hostname = None],
    [_determine_api_url] raises on [None.lower()], and [__init__] raises
    that exception having sent no request. *)
Theorem resolution_raises_on_empty_host
    (check : string -> bool) (network : Request -> http_result)
    (token : string) :
  _normalize_url "" = "https:"
  /\ url_hostname check (_normalize_url "") = Ok None
  /\ _determine_api_url check (_normalize_url "")
     = Raise (AttributeError "'NoneType' object has no attribute 'lower'")
  /\ __init__ check network "" token
     = ([], Raise (AttributeError
                     "'NoneType' object has no attribute 'lower'")).
Proof. repeat split; reflexivity. Qed.

(** C10: the test for the public cloud compares the lowercased parsed host
    name, so it ignores case and port: a base URL whose host name lowercases
    to ["github.com"] resolves to the two fixed public roots, in particular
    [scheme://HOST:port] for every spelling [HOST] of ["github.com"] in
    upper and lower case and every numeric port.  Every other base URL is
    reused verbatim, with its own case and port, before ["/api/v3"] and
    ["/api/graphql"]. *)
Theorem public_host_ignores_case_and_port (check : string -> bool) :
  (forall base h,
      url_hostname check base = Ok (Some h) ->
      lower h = "github.com" ->
      _determine_api_url check base = Ok "https://api.github.com"
      /\ _determine_graphql_url check base
         = Ok "https://api.github.com/graphql")
  /\ (forall sch host port,
         sch = "http" \/ sch = "https" ->
         lower host = "github.com" ->
         forallb is_digit port = true ->
         forall base,
           base = sch ++ "://" ++ host
           \/ base = sch ++ "://" ++ host ++ String ":" port ->
           _normalize_url base = base
           /\ _determine_api_url check base = Ok "https://api.github.com"
           /\ _determine_graphql_url check base
              = Ok "https://api.github.com/graphql")
  /\ (forall base h,
         url_hostname check base = Ok (Some h) ->
         lower h <> "github.com" ->
         _determine_api_url check base = Ok (base ++ "/api/v3")
         /\ _determine_graphql_url check base = Ok (base ++ "/api/graphql"))
  /\ _determine_api_url check (_normalize_url "https://GitHub.com")
     = Ok "https://api.github.com"
  /\ _determine_graphql_url check (_normalize_url "https://github.com:443")
     = Ok "https://api.github.com/graphql"
  /\ _determine_api_url check (_normalize_url "https://GHES.Example.com:8443/")
     = Ok "https://GHES.Example.com:8443/api/v3".
Proof.
  assert (Hpub : forall base h,
             url_hostname check base = Ok (Some h) ->
             lower h = "github.com" ->
             _determine_api_url check base = Ok "https://api.github.com"
             /\ _determine_graphql_url check base
                = Ok "https://api.github.com/graphql").
  { intros base h H E.
    destruct (resolve_by_hostname check _ _ H) as [-> ->].
    rewrite E. split; reflexivity. }
  split; [exact Hpub|]. split; [|split; [|repeat split; reflexivity]].
  - intros sch host port Hs Hl Hp base Hb.
    destruct (github_spelling_plain _ Hl) as [Hplain Hne].
    assert (Ht : exists t,
               base = sch ++ "://" ++ host ++ t
               /\ (t = "" \/ exists p, t = String ":" p
                                       /\ forallb netloc_plain p = true)).
    { destruct Hb as [-> | ->].
      - exists "". rewrite append_nil_r. auto.
      - exists (String ":" port). split; [reflexivity|]. right.
        exists port. split; [reflexivity | now apply digit_plain]. }
    destruct Ht as [t [-> Ht]]. split.
    + apply normalize_plain; [assumption | |].
      * destruct host; [contradiction | discriminate].
      * rewrite forallb_app, (host_plain_netloc _ Hplain).
        destruct Ht as [-> | [p [-> Hpl]]]; simpl; [reflexivity|].
        now rewrite Hpl.
    + apply Hpub with (lower host).
      * now apply url_hostname_plain.
      * now rewrite lower_idem.
  - intros base h H Hne.
    destruct (resolve_by_hostname check _ _ H) as [-> ->].
    destruct (String.eqb_spec (lower h) "github.com") as [E|_];
      [contradiction | split; reflexivity].
Qed.

End ResolveClaims.

(** ** Requests of the handler *)
Section HandlerClaims.
  Import Str Py urllib_parse github_api_handler.

(** The headers [__init__] builds for REST calls. *)
Definition rest_headers (token : string) : list (string * string) :=
  [("Authorization", "Bearer " ++ token);
   ("Accept", "application/vnd.github.v3+json")].

(** An error status for [raise_for_status]. *)
Definition error_status (r : Response) : bool :=
  Z.leb 400 (status_code r) && Z.ltb (status_code r) 600.

(** Identity resolution fails: no response, an error status, a body that
    is not a JSON object, or an object whose ["login"] is missing or
    falsy. *)
Definition identity_fails (answer : http_result) : bool :=
  match answer with
  | NoResponse _ => true
  | Responded r =>
      error_status r
      || match body r with
         | inr (JObj fields) =>
             match dict_get "login" fields with
             | Some v => negb (truthy v)
             | None => true
             end
         | _ => true
         end
  end.

(** The exceptions [_get_authenticated_user] lets out. *)
Definition identity_error (e : exn) : bool :=
  match e with
  | RequestException msg => startswith msg "Failed to fetch user data: "
  | ValueError msg _ =>
      String.eqb msg "Unable to retrieve username from API response"
  | AttributeError _ => true
  | _ => false
  end.

Lemma raise_for_status_spec (r : Response) :
  if error_status r
  then exists msg, raise_for_status r = Raise (RequestException msg)
  else raise_for_status r = Ok tt.
Proof.
  unfold error_status, raise_for_status.
  destruct (Z.leb_spec 400 (status_code r)),
           (Z.ltb_spec (status_code r) 500),
           (Z.ltb_spec (status_code r) 600),
           (Z.leb_spec 500 (status_code r)); simpl; eauto; lia.
Qed.


Lemma identity_error_wrapped (msg : string) :
  identity_error (RequestException ("Failed to fetch user data: " ++ msg))
  = true.
Proof. unfold identity_error, startswith. apply prefix_app. Qed.

Lemma get_user_fails (network : Request -> http_result)
    (api : string) (hs : list (string * string)) :
  identity_fails (network (user_request api hs)) = true ->
  exists e,
    _get_authenticated_user network api hs
    = ([user_request api hs], Raise e)
    /\ identity_error e = true.
Proof.
  unfold _get_authenticated_user, send, identity_fails.
  destruct (network (user_request api hs)) as [msg | r]; simpl.
  - intros _. eexists. split; [reflexivity|]. apply identity_error_wrapped.
  - pose proof (raise_for_status_spec r) as Hs.
    destruct (error_status r); simpl.
    + intros _. destruct Hs as [msg ->]. simpl.
      eexists. split; [reflexivity|]. apply identity_error_wrapped.
    + rewrite Hs. simpl. unfold response_json.
      destruct (body r) as [msg | v]; simpl.
      * intros _. eexists. split; [reflexivity|]. apply identity_error_wrapped.
      * destruct v; simpl;
          try (intros _; eexists; split; reflexivity).
        destruct (dict_get "login" fields) as [v|]; simpl.
        -- intros ->. simpl. eexists. split; reflexivity.
        -- intros _. eexists. split; reflexivity.
Qed.

Lemma get_user_succeeds (network : Request -> http_result)
    (api : string) (hs : list (string * string)) :
  identity_fails (network (user_request api hs)) = false ->
  exists r fields login,
    network (user_request api hs) = Responded r
    /\ body r = inr (JObj fields)
    /\ dict_get "login" fields = Some login
    /\ _get_authenticated_user network api hs
       = ([user_request api hs], Ok login).
Proof.
  unfold _get_authenticated_user, send, identity_fails.
  destruct (network (user_request api hs)) as [msg | r]; [discriminate|].
  pose proof (raise_for_status_spec r) as Hs.
  destruct (error_status r); [discriminate|]. simpl.
  rewrite Hs. unfold response_json.
  destruct (body r) as [msg | v] eqn:Eb; [discriminate|].
  destruct v; try discriminate.
  destruct (dict_get "login" fields) as [v|] eqn:E; [|discriminate].
  intros Ht. apply negb_false_iff in Ht. exists r, fields, v.
  simpl. rewrite E, Ht. simpl. repeat split; reflexivity || assumption.
Qed.


(** A service that answers every request with status 401. *)
Definition unauthorized : Request -> http_result :=
  fun rq => Responded {| status_code := 401; reason := "Unauthorized";
                         resp_url := url rq;
                         body := inr (JObj [("message",
                                             JStr "Bad credentials")]) |}.


(** The claim's test: a non-empty list under ["errors"]. *)
Definition nonempty_errors_list (fields : list (string * json)) : bool :=
  match dict_get "errors" fields with
  | Some (JArr (_ :: _)) => true
  | _ => false
  end.

(** A handler for ["https://github.com"], as [__init__] builds it. *)
Definition public_handler : GitHubAPIHandler :=
  {| base_url := "https://github.com"; token := "t0ken";
     api_url := "https://api.github.com";
     graphql_url := "https://api.github.com/graphql";
     headers := rest_headers "t0ken";
     graphql_headers := [("Authorization", "Bearer t0ken");
                         ("Accept", "application/vnd.github+json")];
     username := JStr "octocat" |}.

(** A service that answers every request with status 200 and the given
    envelope. *)
Definition answers (envelope : json) : Request -> http_result :=
  fun rq => Responded {| status_code := 200; reason := "OK";
                         resp_url := url rq; body := inr envelope |}.

(** C5, as stated: raising "exactly when the errors list is non-empty"
    fails.  An envelope received with status 200 whose ["errors"] is the
    empty list makes [make_graphql_request] raise its [ValueError]. *)
Lemma graphql_empty_errors_list_raises :
  nonempty_errors_list [("data", JObj [("viewer", JNull)]); ("errors", JArr [])]
  = false
  /\ make_graphql_request
       (answers (JObj [("data", JObj [("viewer", JNull)]);
                       ("errors", JArr [])]))
       public_handler "query { viewer { login } }" None
     = ([graphql_request public_handler "query { viewer { login } }" None],
        Raise (ValueError "GraphQL query failed: " (Some (JArr [])))).
Proof. split; reflexivity. Qed.

(** C5, amended: for a response with a non-error HTTP status whose body is
    a JSON object, [make_graphql_request] raises its [ValueError] exactly
    when the object has a top-level ["errors"] key, whatever the value under
    it (an empty list included), carrying that value and returning no data;
    without the key it returns the value under ["data"] alone, or an empty
    mapping when there is none.  One request is sent either way. *)
Theorem graphql_raises_iff_errors_key
    (network : Request -> http_result) (self : GitHubAPIHandler)
    (query : string) (variables : option json)
    (r : Response) (fields : list (string * json)) :
  network (graphql_request self query variables) = Responded r ->
  error_status r = false ->
  body r = inr (JObj fields) ->
  make_graphql_request network self query variables
  = ([graphql_request self query variables],
     if dict_has "errors" fields
     then Raise (ValueError "GraphQL query failed: "
                   (dict_get "errors" fields))
     else Ok match dict_get "data" fields with
             | Some data => data
             | None => JObj []
             end)
  /\ ((exists msg arg,
          snd (make_graphql_request network self query variables)
          = Raise (ValueError msg arg))
      <-> dict_has "errors" fields = true).
Proof.
  intros Hn Hs Hb.
  assert (E : make_graphql_request network self query variables
              = ([graphql_request self query variables],
                 if dict_has "errors" fields
                 then Raise (ValueError "GraphQL query failed: "
                               (dict_get "errors" fields))
                 else Ok match dict_get "data" fields with
                         | Some data => data
                         | None => JObj []
                         end)).
  { unfold make_graphql_request, send. rewrite Hn.
    pose proof (raise_for_status_spec r) as Hr. rewrite Hs in Hr.
    unfold io_lift, response_json. cbn [io_bind]. rewrite Hr, Hb.
    cbn [io_bind errors_in]. now destruct (dict_has "errors" fields). }
  split; [exact E|]. rewrite E. simpl.
  destruct (dict_has "errors" fields).
  - split; [reflexivity | eauto].
  - split; [intros [msg [arg H]]; discriminate H | discriminate].
Qed.

Lemma graphql_raises_iff_errors_key_witness :
  make_graphql_request
    (answers (JObj [("data", JObj [("viewer", JObj [("login", JStr "octocat")])])]))
    public_handler "query { viewer { login } }" None
  = ([graphql_request public_handler "query { viewer { login } }" None],
     Ok (JObj [("viewer", JObj [("login", JStr "octocat")])])).
Proof.
  refine (proj1 (graphql_raises_iff_errors_key
           (answers (JObj [("data", JObj [("viewer",
                                           JObj [("login", JStr "octocat")])])]))
           public_handler "query { viewer { login } }" None
           {| status_code := 200; reason := "OK";
              resp_url := "https://api.github.com/graphql";
              body := inr (JObj [("data", JObj [("viewer",
                                    JObj [("login", JStr "octocat")])])]) |}
           [("data", JObj [("viewer", JObj [("login", JStr "octocat")])])]
           _ _ _));
    reflexivity.
Defined.

End HandlerClaims.

(** ** Pagination *)
Section Paginate.
  Import Str Py users_dump_slack.
  Local Open Scope list_scope.

(** [time.sleep] of the platform. *)
Variable time_sleep : Z -> result unit.

(** The generator run against a scripted service. *)
Definition run (fuel : nat) (script : Script) (limit : Z)
    (cursor : option string) : list event * outcome :=
  fetch_loop Script scripted time_sleep fuel script limit cursor.

(** The exception is the rate-limited condition:
    a [SlackApiError] with [e.response["error"] == "ratelimited"]. *)
Definition is_ratelimited (e : exn) : bool :=
  match e with
  | SlackApiError r =>
      match error r with
      | Some text => String.eqb text "ratelimited"
      | None => false
      end
  | _ => false
  end.

(** The cursors sent while the pages [pages] are fetched from [cursor]. *)
Fixpoint page_cursors (cursor : option string)
    (pages : list (list Member * string)) : list (option string) :=
  match pages with
  | [] => []
  | p :: pages' => cursor :: page_cursors (Some (snd p)) pages'
  end.

(** Every page announces a next page. *)
Definition cursors_present (pages : list (list Member * string)) : Prop :=
  Forall (fun p => snd p <> "") pages.

Lemma yielded_app (a b : list event) :
  yielded (a ++ b) = (yielded a ++ yielded b)%list.
Proof.
  induction a as [|[] a IH]; simpl; [reflexivity | ..]; now rewrite ?IH.
Qed.

Lemma requested_app (a b : list event) :
  requested (a ++ b) = (requested a ++ requested b)%list.
Proof.
  induction a as [|[] a IH]; simpl; [reflexivity | ..]; now rewrite ?IH.
Qed.

Lemma slept_app (a b : list event) :
  slept (a ++ b) = (slept a ++ slept b)%list.
Proof.
  induction a as [|[] a IH]; simpl; [reflexivity | ..]; now rewrite ?IH.
Qed.

Lemma yielded_yields (ms : list Member) : yielded (map Yield ms) = ms.
Proof. induction ms; simpl; congruence. Qed.

Lemma requested_yields (ms : list Member) : requested (map Yield ms) = [].
Proof. induction ms; simpl; congruence. Qed.

Lemma slept_yields (ms : list Member) : slept (map Yield ms) = [].
Proof. induction ms; simpl; congruence. Qed.

Lemma yielded_pages (limit : Z) (cursor : option string)
    (pages : list (list Member * string)) :
  yielded (pages_trace limit cursor pages) = concat (map fst pages).
Proof.
  revert cursor; induction pages as [|p pages IH]; intros cursor; simpl;
    [reflexivity|].
  now rewrite yielded_app, yielded_yields, IH.
Qed.

Lemma requested_pages (limit : Z) (cursor : option string)
    (pages : list (list Member * string)) :
  requested (pages_trace limit cursor pages) = page_cursors cursor pages.
Proof.
  revert cursor; induction pages as [|p pages IH]; intros cursor; simpl;
    [reflexivity|].
  now rewrite requested_app, requested_yields, IH.
Qed.

Lemma slept_pages (limit : Z) (cursor : option string)
    (pages : list (list Member * string)) :
  slept (pages_trace limit cursor pages) = [].
Proof.
  revert cursor; induction pages as [|p pages IH]; intros cursor; simpl;
    [reflexivity|].
  now rewrite slept_app, slept_yields, IH.
Qed.


(** Pages that announce a next page are fetched one after the other,
    each with the cursor of the page before; the loop then goes on with
    what the service answers next. *)
Lemma run_pages (pages : list (list Member * string)) (rest : Script)
    (fuel : nat) (limit : Z) (cursor : option string) :
  cursors_present pages ->
  run (length pages + fuel) (map page_with_cursor pages ++ rest) limit cursor
  = (pages_trace limit cursor pages
       ++ fst (run fuel rest limit (cursor_after cursor pages)),
     snd (run fuel rest limit (cursor_after cursor pages))).
Proof.
  unfold run, cursors_present.
  revert cursor; induction pages as [|[ms c] pages IH]; intros cursor Hc.
  - simpl. now destruct (fetch_loop _ _ _ _ _ _ _).
  - inversion Hc as [|? ? Hne Hrest]; subst. simpl in Hne.
    simpl. destruct c as [|a c]; [contradiction|]. simpl.
    rewrite (IH _ Hrest). simpl. now rewrite <- app_assoc.
Qed.

Lemma run_last (resp : SlackResponse) (rest : Script) (fuel : nat)
    (limit : Z) (cursor : option string) :
  cursor_falsy (read_cursor resp) = true ->
  run (S fuel) (Returns resp :: rest) limit cursor
  = (Call limit cursor :: map Yield (members resp), Exhausted).
Proof. unfold run. simpl. now intros ->. Qed.

Lemma run_ratelimited (hs : list (string * string)) (d : Z) (rest : Script)
    (fuel : nat) (limit : Z) (cursor : option string) :
  retry_delay {| error := Some "ratelimited"; headers := hs |} = Ok d ->
  time_sleep d = Ok tt ->
  run (S fuel) (ratelimited hs :: rest) limit cursor
  = (Call limit cursor :: Sleep d :: fst (run fuel rest limit cursor),
     snd (run fuel rest limit cursor)).
Proof.
  unfold run. intros Hd Hs. simpl. simpl in Hd. unfold retry_delay at 1.
  simpl. unfold retry_delay in Hd. simpl in Hd. rewrite Hd, Hs.
  now destruct (fetch_loop _ _ _ _ _ _ _).
Qed.

Lemma run_failure (e : exn) (rest : Script) (fuel : nat) (limit : Z)
    (cursor : option string) :
  is_ratelimited e = false ->
  run (S fuel) (Raises e :: rest) limit cursor
  = ([Call limit cursor], Failed e).
Proof.
  unfold run. simpl. destruct e; simpl; try reflexivity.
  destruct (error response) as [text|]; [|reflexivity].
  now intros ->.
Qed.

End Paginate.

Section PaginateClaims.
  Import Str Py users_dump_slack.
  Local Open Scope list_scope.

Lemma page_cursors_all (cursor : option string)
    (pages : list (list Member * string)) :
  page_cursors cursor pages ++ [cursor_after cursor pages]
  = cursor :: map (fun p => Some (snd p)) pages.
Proof.
  unfold cursor_after.
  revert cursor; induction pages as [|p pages IH]; intros cursor; simpl;
    [reflexivity|].
  now rewrite IH.
Qed.

Lemma no_empty_cursor (pages : list (list Member * string)) :
  cursors_present pages ->
  ~ In (Some "") (None :: map (fun p => Some (snd p)) pages).
Proof.
  intros Hc [H | H]; [discriminate|].
  apply in_map_iff in H as [p [E Hin]].
  unfold cursors_present in Hc. rewrite Forall_forall in Hc.
  apply (Hc _ Hin). congruence.
Qed.

(** The run over [pages], then a page that ends the pagination. *)
Lemma run_to_last (time_sleep : Z -> result unit)
    (pages : list (list Member * string))
    (last : SlackResponse) (rest : Script) (fuel : nat) (limit : Z)
    (cursor : option string) :
  cursors_present pages ->
  cursor_falsy (read_cursor last) = true ->
  length pages < fuel ->
  run time_sleep fuel (map page_with_cursor pages ++ Returns last :: rest)
    limit cursor
  = (pages_trace limit cursor pages
       ++ Call limit (cursor_after cursor pages) :: map Yield (members last),
     Exhausted).
Proof.
  intros Hc Hl Hf.
  replace fuel with (length pages + S (fuel - S (length pages))) by lia.
  rewrite run_pages by assumption. now rewrite run_last.
Qed.




(** C4: a rate-limited failure ([SlackApiError] whose error is
    ["ratelimited"]) whose [Retry-After] header reads as [d] seconds, the
    default being 1 when the header is absent, makes [fetch_all_users]
    sleep [d] seconds once and call [users_list] again with the same
    cursor and limit.  With the failure after the pages [pre] (on page 2
    when [pre] is one page), the records of every page are yielded once, in
    order, and the generator returns: the consumer sees no trace of the
    retry.  Any other exception [e] is not retried: it leaves the generator
    right after the failed call, once the pages before it were yielded. *)
Theorem rate_limit_retries_same_request
    (time_sleep : Z -> result unit) (limit : Z) (pre post : list (list Member * string))
    (last : SlackResponse) (hs : list (string * string)) (d : Z) (e : exn)
    (rest : Script) (fuel : nat) :
  cursors_present pre ->
  cursors_present post ->
  read_cursor last = None ->
  retry_delay {| error := Some "ratelimited"; headers := hs |} = Ok d ->
  time_sleep d = Ok tt ->
  is_ratelimited e = false ->
  length pre + length post + 1 < fuel ->
  let c := cursor_after None pre in
  let out :=
    fetch_all_users Script scripted time_sleep fuel
      (map page_with_cursor pre
         ++ ratelimited hs
            :: map page_with_cursor post ++ Returns last :: rest) limit in
  let failed :=
    fetch_all_users Script scripted time_sleep fuel
      (map page_with_cursor pre ++ Raises e :: rest) limit in
  (snd out = Exhausted
   /\ fst out
      = pages_trace limit None pre
          ++ Call limit c :: Sleep d
             :: pages_trace limit c post
                  ++ Call limit (cursor_after c post)
                     :: map Yield (members last)
   /\ yielded (fst out)
      = concat (map fst pre) ++ concat (map fst post) ++ members last
   /\ slept (fst out) = [d]
   /\ requested (fst out)
      = (None :: map (fun p => Some (snd p)) pre)
          ++ c :: map (fun p => Some (snd p)) post)
  /\ (dict_get "Retry-After" hs = None -> d = 1%Z)
  /\ failed = (pages_trace limit None pre ++ [Call limit c], Failed e)
  /\ yielded (fst failed) = concat (map fst pre).
Proof.
  intros Hpre Hpost Hl Hd Hs He Hf c out failed.
  assert (Eout : out = (pages_trace limit None pre
                          ++ Call limit c :: Sleep d
                             :: pages_trace limit c post
                                  ++ Call limit (cursor_after c post)
                                     :: map Yield (members last),
                        Exhausted)).
  { unfold out, fetch_all_users. fold (run time_sleep).
    replace fuel
      with (length pre + S (fuel - S (length pre))) by lia.
    rewrite run_pages by assumption.
    rewrite (run_ratelimited _ _ _ _ _ _ _ Hd Hs).
    rewrite run_to_last; try assumption; [reflexivity | | lia].
    now rewrite Hl. }
  assert (Efailed : failed
                    = (pages_trace limit None pre ++ [Call limit c], Failed e)).
  { unfold failed, fetch_all_users. fold (run time_sleep).
    replace fuel
      with (length pre + S (fuel - S (length pre))) by lia.
    rewrite run_pages by assumption.
    now rewrite (run_failure _ _ _ _ _ _ He). }
  split; [|split; [|split]].
  - rewrite Eout. cbn [fst snd]. repeat split.
    + rewrite yielded_app, yielded_pages. cbn [yielded].
      rewrite yielded_app, yielded_pages. cbn [yielded].
      now rewrite yielded_yields.
    + rewrite slept_app, slept_pages. cbn [slept app].
      rewrite slept_app, slept_pages. cbn [slept app].
      now rewrite slept_yields.
    + rewrite <- (page_cursors_all None pre). fold c.
      rewrite requested_app, requested_pages. cbn [requested].
      rewrite requested_app, requested_pages. cbn [requested].
      rewrite requested_yields, page_cursors_all, <- app_assoc.
      reflexivity.
  - intros Hnone. unfold retry_delay in Hd. simpl in Hd.
    rewrite Hnone in Hd. congruence.
  - exact Efailed.
  - rewrite Efailed. simpl. rewrite yielded_app, yielded_pages. simpl.
    apply app_nil_r.
Qed.

(** A rate limit on page 2 of three pages, to be retried after 30
    seconds. *)
Definition limited_on_page_2 : Script :=
  [page_with_cursor ([JStr "U1"; JStr "U2"], "c1");
   ratelimited [("Retry-After", "30")];
   page_with_cursor ([JStr "U3"], "c2");
   Returns {| members := [JStr "U4"]; response_metadata := None |}].

Lemma rate_limit_retries_same_request_witness :
  yielded
    (fst (fetch_all_users Script scripted sleep_nonnegative 4
            limited_on_page_2 200))
  = [JStr "U1"; JStr "U2"; JStr "U3"; JStr "U4"]
  /\ slept
       (fst (fetch_all_users Script scripted sleep_nonnegative 4
               limited_on_page_2 200))
     = [30%Z]
  /\ requested
       (fst (fetch_all_users Script scripted sleep_nonnegative 4
               limited_on_page_2 200))
     = [None; Some "c1"; Some "c1"; Some "c2"].
Proof.
  pose proof (rate_limit_retries_same_request sleep_nonnegative 200
                [([JStr "U1"; JStr "U2"], "c1")] [([JStr "U3"], "c2")]
                {| members := [JStr "U4"]; response_metadata := None |}
                [("Retry-After", "30")] 30%Z
                (SlackApiError {| error := Some "invalid_auth";
                                  headers := [] |})
                [] 4) as H.
  cbv zeta in H.
  destruct H as [[_ [_ [H3 [H4 H5]]]] _];
    [repeat constructor; discriminate | repeat constructor; discriminate
     | reflexivity | reflexivity | reflexivity | reflexivity
     | repeat constructor |].
  split; [exact H3 | split; [exact H4 | exact H5]].
Defined.

(** C8: a page whose pagination metadata is present with the empty string
    as next cursor ends the pagination like a page without next cursor:
    [fetch_all_users] yields its records and returns, whatever the service
    would answer next, and no call carries an empty cursor. *)
Theorem empty_cursor_ends_pagination
    (time_sleep : Z -> result unit) (limit : Z) (pages : list (list Member * string)) (ms : list Member)
    (rest : Script) (fuel : nat) :
  cursors_present pages ->
  length pages < fuel ->
  let page metadata :=
    Returns {| members := ms; response_metadata := metadata |} in
  let out :=
    fetch_all_users Script scripted time_sleep fuel
      (map page_with_cursor pages
         ++ page (Some {| next_cursor := Some "" |}) :: rest) limit in
  out = (pages_trace limit None pages
           ++ Call limit (cursor_after None pages) :: map Yield ms,
         Exhausted)
  /\ out
     = fetch_all_users Script scripted time_sleep fuel
         (map page_with_cursor pages
            ++ page (Some {| next_cursor := None |}) :: rest) limit
  /\ out
     = fetch_all_users Script scripted time_sleep fuel
         (map page_with_cursor pages ++ page None :: rest) limit
  /\ requested (fst out) = None :: map (fun p => Some (snd p)) pages
  /\ ~ In (Some "") (requested (fst out)).
Proof.
  intros Hc Hf page out.
  assert (E : forall metadata,
             cursor_falsy
               (read_cursor {| members := ms;
                               response_metadata := metadata |}) = true ->
             fetch_all_users Script scripted time_sleep fuel
               (map page_with_cursor pages ++ page metadata :: rest) limit
             = (pages_trace limit None pages
                  ++ Call limit (cursor_after None pages) :: map Yield ms,
                Exhausted)).
  { intros metadata Hm. unfold fetch_all_users. fold (run time_sleep).
    unfold page. now rewrite run_to_last. }
  assert (Eout : out = (pages_trace limit None pages
                          ++ Call limit (cursor_after None pages)
                             :: map Yield ms, Exhausted))
    by (apply E; reflexivity).
  assert (Hr : requested (fst out) = None :: map (fun p => Some (snd p)) pages).
  { rewrite Eout. simpl. rewrite requested_app, requested_pages. simpl.
    rewrite requested_yields. apply page_cursors_all. }
  split; [exact Eout|]. split; [|split; [|split]].
  - rewrite Eout. symmetry. apply E. reflexivity.
  - rewrite Eout. symmetry. apply E. reflexivity.
  - exact Hr.
  - rewrite Hr. now apply no_empty_cursor.
Qed.

(** A page with an empty next cursor, followed by a page the generator
    must not ask for. *)
Definition empty_cursor_then_more : Script :=
  [page_with_cursor ([JStr "U1"], "c1");
   Returns {| members := [JStr "U2"];
              response_metadata := Some {| next_cursor := Some "" |} |};
   Returns {| members := [JStr "U3"]; response_metadata := None |}].

Lemma empty_cursor_ends_pagination_witness :
  fetch_all_users Script scripted sleep_nonnegative 5
    empty_cursor_then_more 200
  = ([Call 200 None; Yield (JStr "U1");
      Call 200 (Some "c1"); Yield (JStr "U2")], Exhausted).
Proof.
  pose proof (empty_cursor_ends_pagination sleep_nonnegative 200
                [([JStr "U1"], "c1")] [JStr "U2"]
                [Returns {| members := [JStr "U3"];
                            response_metadata := None |}] 5) as H.
  cbv zeta in H.
  destruct H as [H _];
    [repeat constructor; discriminate | repeat constructor |].
  exact H.
Defined.

End PaginateClaims.

(** * The rest of the code

    Beyond the functions above, in the same conventions:

    - [make_api_request] and [get_username] of the handler;
    - the loop of [main] in [src/users_dump_slack.py] over the records the
      generator yields: the two filters, the row of a record, the counters;
    - [load_and_normalize] and [map_and_output] of
      [src/users_map_saml_users_no_api.py]: the column names, the join key,
      the left join and the files written.

    Argument parsing, logging, the backup copy and the remote SSH commands
    are left out. *)

(** ** [make_api_request] and [get_username] *)
Module github_rest.
  Import Str Py github_api_handler.

(** [requests.request(method=..., url=..., headers=..., json=data,
    params=params)]: the request with its query parameters. *)
Record RestCall : Type := {
  call : Request;
  params : option (list (string * string))
}.

(** The response with its raw body, [response.content]. *)
Record RestAnswer : Type := {
  answer : Response;
  content : string
}.

Inductive rest_result : Type :=
| Unanswered (msg : string)
| Answered (a : RestAnswer).

(** [except RequestException as e: raise RequestException(prefix + str(e))]
    around a result. *)
Definition rewrap_result {A : Type} (prefix : string) (r : result A)
  : result A :=
  match r with
  | Raise (RequestException msg) => Raise (RequestException (prefix ++ msg))
  | _ => r
  end.

(** The request [make_api_request] builds from [self] and its arguments. *)
Definition rest_call (self : GitHubAPIHandler) (endpoint method : string)
    (data : option json) (params : option (list (string * string)))
  : RestCall :=
  {| call := {| method := method; url := api_url self ++ endpoint;
                req_headers := headers self; req_json := data |};
     params := params |}.

(** [make_api_request] *)
Definition make_api_request (network : RestCall -> rest_result)
    (self : GitHubAPIHandler) (endpoint method : string)
    (data : option json) (params : option (list (string * string)))
  : list RestCall * result json :=
  let rq := rest_call self endpoint method data params in
  ([rq],
   rewrap_result "REST API request failed: "
     match network rq with
     | Unanswered msg => Raise (RequestException msg)
     | Answered a =>
         _ <- raise_for_status (answer a) ;;
         if negb (is_empty (content a)) then response_json (answer a)
         else Ok (JObj [])
     end).

(** [get_username] *)
Definition get_username (self : GitHubAPIHandler) : json := username self.

End github_rest.

Section RestFacts.
  Import Str Py urllib_parse github_api_handler github_rest.

(** The exception is a [RequestException] whose message starts with
    [prefix]. *)
Definition request_exception_with (prefix : string) (r : result json) : Prop :=
  exists msg, r = Raise (RequestException (prefix ++ msg)).

(** X1: a REST call that gets no response, or a response with a status
    from 400 to 599, raises a [RequestException] whose message starts with
    "REST API request failed: "; exactly one request was sent (no retry),
    and the body of the response is not looked at. *)
Theorem rest_request_failure
    (network : RestCall -> rest_result) (self : GitHubAPIHandler)
    (endpoint method : string) (data : option json)
    (params : option (list (string * string))) :
  match network (rest_call self endpoint method data params) with
  | Unanswered _ => True
  | Answered a => error_status (answer a) = true
  end ->
  fst (make_api_request network self endpoint method data params)
  = [rest_call self endpoint method data params]
  /\ request_exception_with "REST API request failed: "
       (snd (make_api_request network self endpoint method data params)).
Proof.
  unfold make_api_request, request_exception_with. simpl.
  destruct (network _) as [msg | a]; simpl; intros H.
  - split; [reflexivity | now exists msg].
  - pose proof (raise_for_status_spec (answer a)) as Hs. rewrite H in Hs.
    destruct Hs as [msg ->]. simpl. split; [reflexivity | now exists msg].
Qed.

(** A service that answers every REST call with status 404. *)
Definition not_found : RestCall -> rest_result :=
  fun rq => Answered {| answer := {| status_code := 404;
                                     reason := "Not Found";
                                     resp_url := url (call rq);
                                     body := inr (JObj [("message",
                                                         JStr "Not Found")]) |};
                        content := "{...}" |}.

Lemma rest_request_failure_witness :
  request_exception_with "REST API request failed: "
    (snd (make_api_request not_found public_handler "/repos/o/r" "GET"
            None None)).
Proof.
  apply (rest_request_failure not_found public_handler "/repos/o/r" "GET"
           None None).
  reflexivity.
Defined.

(** X2: for a response whose status is not an error, [make_api_request]
    returns the empty mapping when the raw body is empty, without decoding
    anything, and otherwise what [response.json()] gives: the decoded value,
    or a [RequestException] "REST API request failed: ..." when the body is
    not JSON. *)
Theorem rest_request_success
    (network : RestCall -> rest_result) (self : GitHubAPIHandler)
    (endpoint method : string) (data : option json)
    (params : option (list (string * string))) (a : RestAnswer) :
  network (rest_call self endpoint method data params) = Answered a ->
  error_status (answer a) = false ->
  snd (make_api_request network self endpoint method data params)
  = match content a, body (answer a) with
    | "", _ => Ok (JObj [])
    | _, inr v => Ok v
    | _, inl msg =>
        Raise (RequestException ("REST API request failed: " ++ msg))
    end.
Proof.
  intros Hn Hs. unfold make_api_request. simpl. rewrite Hn.
  pose proof (raise_for_status_spec (answer a)) as Hr. rewrite Hs in Hr.
  rewrite Hr. simpl. unfold response_json.
  destruct (content a); simpl; [reflexivity|].
  now destruct (body (answer a)).
Qed.

(** A service that answers every REST call with status 204 and no body. *)
Definition no_content : RestCall -> rest_result :=
  fun rq => Answered {| answer := {| status_code := 204;
                                     reason := "No Content";
                                     resp_url := url (call rq);
                                     body := inl "Expecting value" |};
                        content := "" |}.

Lemma rest_request_success_witness :
  snd (make_api_request no_content public_handler "/user/starred/o/r" "PUT"
         None None)
  = Ok (JObj []).
Proof.
  apply (rest_request_success no_content public_handler "/user/starred/o/r"
           "PUT" None None
           {| answer := {| status_code := 204; reason := "No Content";
                           resp_url := "https://api.github.com/user/starred/o/r";
                           body := inl "Expecting value" |};
              content := "" |});
    reflexivity.
Defined.

End RestFacts.

(** ** Construction and the requests of a constructed handler *)
Section HandlerFacts.
  Import Str Py urllib_parse github_api_handler github_rest.

(** The headers [__init__] builds for GraphQL calls. *)
Definition graph_headers (token : string) : list (string * string) :=
  [("Authorization", "Bearer " ++ token);
   ("Accept", "application/vnd.github+json")].

Lemma resolution_raises_together (check : string -> bool) (base : string)
    (e : exn) :
  _determine_api_url check base = Raise e <->
  _determine_graphql_url check base = Raise e.
Proof.
  unfold _determine_api_url, _determine_graphql_url.
  destruct (lowered_hostname check base) as [h|e']; simpl; [|tauto].
  destruct (String.eqb h "github.com"); split; discriminate.
Qed.

Lemma init_unresolved (check : string -> bool)
    (network : Request -> http_result) (url token : string) (e : exn) :
  _determine_api_url check (_normalize_url url) = Raise e ->
  __init__ check network url token = ([], Raise e).
Proof. intros H. unfold __init__. now rewrite H. Qed.

(** X3: construction fails without any request for every base host made of
    slashes only after its optional ["http://"] or ["https://"] (the inputs
    whose normalisation lost its scheme prefix, the empty string among
    them): the normalised URL has no host name and [__init__] raises the
    [AttributeError] of [None.lower()], whatever the network would
    answer. *)
Theorem construction_fails_without_host
    (check : string -> bool) (network : Request -> http_result)
    (url token : string) :
  has_scheme (_normalize_url url) = false ->
  url_hostname check (_normalize_url url) = Ok None
  /\ __init__ check network url token
     = ([], Raise (AttributeError
                     "'NoneType' object has no attribute 'lower'")).
Proof.
  intros H.
  destruct (normalize_shape url) as [[E | E] | E]; [| |congruence].
  - split; [now rewrite E|]. apply init_unresolved. now rewrite E.
  - split; [now rewrite E|]. apply init_unresolved. now rewrite E.
Qed.

Lemma construction_fails_without_host_witness :
  __init__ (fun _ => true) unauthorized "http:////" "t0ken"
  = ([], Raise (AttributeError "'NoneType' object has no attribute 'lower'")).
Proof.
  apply (construction_fails_without_host (fun _ => true) unauthorized
           "http:////" "t0ken").
  reflexivity.
Defined.

(** A service that answers every request with status 200 and the identity
    of [octocat]. *)
Definition logged_in : Request -> http_result :=
  answers (JObj [("login", JStr "octocat"); ("id", JNum 1)]).

(** X4: a handler that [__init__] returned holds the normalised base URL,
    the two roots resolved from it and, as [get_username], the truthy
    ["login"] of the answer to the one request construction sent.  Every
    REST call it builds goes to the REST root followed by the endpoint with
    the bearer token and the v3 media type; every GraphQL call goes to the
    GraphQL root with the bearer token and the generic media type. *)
Theorem constructed_handler
    (check : string -> bool) (network : Request -> http_result)
    (host token : string) (sent : list Request) (self : GitHubAPIHandler) :
  __init__ check network host token = (sent, Ok self) ->
  base_url self = _normalize_url host
  /\ _determine_api_url check (_normalize_url host) = Ok (api_url self)
  /\ _determine_graphql_url check (_normalize_url host)
     = Ok (graphql_url self)
  /\ sent = [user_request (api_url self) (rest_headers token)]
  /\ truthy (get_username self) = true
  /\ (exists r fields,
         network (user_request (api_url self) (rest_headers token))
         = Responded r
         /\ body r = inr (JObj fields)
         /\ dict_get "login" fields = Some (get_username self))
  /\ (forall endpoint method data params,
         call (rest_call self endpoint method data params)
         = {| method := method; url := api_url self ++ endpoint;
              req_headers := rest_headers token; req_json := data |})
  /\ (forall query variables,
         url (graphql_request self query variables) = graphql_url self
         /\ req_headers (graphql_request self query variables)
            = graph_headers token).
Proof.
  unfold __init__, io_lift.
  destruct (_determine_api_url check (_normalize_url host)) as [api|e] eqn:Ha;
    [|discriminate].
  destruct (_determine_graphql_url check (_normalize_url host))
    as [graph|e] eqn:Hg; [|discriminate].
  cbn [io_bind]. fold (rest_headers token).
  destruct (identity_fails (network (user_request api (rest_headers token))))
    eqn:Hi.
  - destruct (get_user_fails _ _ _ Hi) as [e [-> _]]. discriminate.
  - destruct (get_user_succeeds _ _ _ Hi)
      as [r [fields [login [Hn [Hb [Hl ->]]]]]].
    cbn [io_bind io_ret app]. intros [= <- <-]. cbn.
    repeat split; try reflexivity.
    + revert Hi. unfold identity_fails. rewrite Hn, Hb, Hl.
      intros H. apply orb_false_iff in H as [_ H].
      now apply negb_false_iff in H.
    + exists r, fields. now repeat split.
Qed.

Lemma constructed_handler_witness :
  exists self,
    __init__ (fun _ => true) logged_in "GitHub.com/" "t0ken"
    = ([user_request "https://api.github.com" (rest_headers "t0ken")],
       Ok self)
    /\ base_url self = "https://GitHub.com"
    /\ get_username self = JStr "octocat".
Proof.
  eexists. split; [reflexivity|].
  pose proof (constructed_handler (fun _ => true) logged_in "GitHub.com/"
                "t0ken" _ _ eq_refl) as [H _].
  split; [exact H | reflexivity].
Defined.

End HandlerFacts.

(** ** The GraphQL request, failures *)
Section GraphFacts.
  Import Str Py urllib_parse github_api_handler github_rest.

(** X5: a GraphQL call that gets no response, or a response with a status
    from 400 to 599, raises a [RequestException] whose message starts with
    "GraphQL API request failed: ", after one request; the envelope is not
    looked at, so neither its data nor its errors come out. *)
Theorem graphql_request_failure
    (network : Request -> http_result) (self : GitHubAPIHandler)
    (query : string) (variables : option json) :
  match network (graphql_request self query variables) with
  | NoResponse _ => True
  | Responded r => error_status r = true
  end ->
  fst (make_graphql_request network self query variables)
  = [graphql_request self query variables]
  /\ request_exception_with "GraphQL API request failed: "
       (snd (make_graphql_request network self query variables)).
Proof.
  unfold make_graphql_request, send, request_exception_with.
  destruct (network _) as [msg | r]; simpl; intros H.
  - split; [reflexivity | now exists msg].
  - pose proof (raise_for_status_spec r) as Hs. rewrite H in Hs.
    destruct Hs as [msg ->]. simpl. split; [reflexivity | now exists msg].
Qed.

(** A service that answers with status 502 and an envelope holding
    data. *)
Definition bad_gateway : Request -> http_result :=
  fun rq => Responded {| status_code := 502; reason := "Bad Gateway";
                         resp_url := url rq;
                         body := inr (JObj [("data", JObj [])]) |}.

Lemma graphql_request_failure_witness :
  request_exception_with "GraphQL API request failed: "
    (snd (make_graphql_request bad_gateway public_handler "query { }" None)).
Proof.
  apply (graphql_request_failure bad_gateway public_handler "query { }" None).
  reflexivity.
Defined.

(** The exception classes an envelope that is no mapping runs into. *)
Definition type_or_attribute_error (e : exn) : bool :=
  match e with
  | TypeError _ | AttributeError _ => true
  | _ => false
  end.

(** X6: when the body received with a non-error status decodes to a JSON
    value that is no object (a list, a string, a number, a boolean, null),
    [make_graphql_request] raises a [TypeError] or an [AttributeError]: it
    returns nothing, and the exception is not turned into the
    [RequestException] of a failed request. *)
Theorem graphql_envelope_not_object
    (network : Request -> http_result) (self : GitHubAPIHandler)
    (query : string) (variables : option json) (r : Response) (v : json) :
  network (graphql_request self query variables) = Responded r ->
  error_status r = false ->
  body r = inr v ->
  match v with JObj _ => False | _ => True end ->
  exists e,
    make_graphql_request network self query variables
    = ([graphql_request self query variables], Raise e)
    /\ type_or_attribute_error e = true.
Proof.
  intros Hn Hs Hb Hv. unfold make_graphql_request, send. rewrite Hn.
  pose proof (raise_for_status_spec r) as Hr. rewrite Hs in Hr.
  unfold io_lift, response_json. cbn [io_bind]. rewrite Hr, Hb.
  cbn [io_bind]. destruct v; try contradiction; cbn.
  - eexists. split; reflexivity.
  - eexists. split; reflexivity.
  - eexists. split; reflexivity.
  - destruct (substring_of "errors" s); cbn; eexists; split; reflexivity.
  - destruct (existsb _ items); cbn; eexists; split; reflexivity.
Qed.

Lemma graphql_envelope_not_object_witness :
  exists e,
    make_graphql_request (answers (JArr [JStr "errors"])) public_handler
      "query { }" None
    = ([graphql_request public_handler "query { }" None], Raise e)
    /\ type_or_attribute_error e = true.
Proof.
  apply (graphql_envelope_not_object (answers (JArr [JStr "errors"]))
           public_handler "query { }" None
           {| status_code := 200; reason := "OK";
              resp_url := "https://api.github.com/graphql";
              body := inr (JArr [JStr "errors"]) |}
           (JArr [JStr "errors"]));
    first [reflexivity | exact I].
Defined.

End GraphFacts.

(** ** Endpoint resolution, further *)
Section ResolveFacts.
  Import Str Py urllib_parse github_api_handler.

Lemma drop_app (a b : string) : drop (String.length a) (a ++ b) = b.
Proof. induction a; simpl; [now destruct b | assumption]. Qed.

Lemma self_hosted_rest_not_public (base : string) :
  base ++ "/api/v3" <> public_rest_root.
Proof.
  intros E. pose proof (f_equal String.length E) as Hl.
  rewrite length_app in Hl. simpl in Hl.
  pose proof (drop_app base "/api/v3") as Hd. rewrite E in Hd.
  replace (String.length base) with 15 in Hd by lia. discriminate Hd.
Qed.

Lemma self_hosted_graph_not_public (base : string) :
  base ++ "/api/graphql" <> public_graph_root.
Proof.
  intros E. pose proof (f_equal String.length E) as Hl.
  rewrite length_app in Hl. simpl in Hl.
  pose proof (drop_app base "/api/graphql") as Hd. rewrite E in Hd.
  replace (String.length base) with 18 in Hd by lia. discriminate Hd.
Qed.

(** X7: the two roots always belong to the same deployment.  For every
    base URL, [_determine_api_url] and [_determine_graphql_url] either both
    raise the same exception, or both return the public roots, or both
    return the base URL followed by ["/api/v3"] and ["/api/graphql"]; a
    root built from the base URL is never a public root. *)
Theorem roots_agree (check : string -> bool) (base : string) :
  match _determine_api_url check base, _determine_graphql_url check base with
  | Ok api, Ok graph =>
      (api = public_rest_root /\ graph = public_graph_root)
      \/ (api = base ++ "/api/v3" /\ graph = base ++ "/api/graphql"
          /\ api <> public_rest_root /\ graph <> public_graph_root)
  | Raise e, Raise e' => e = e'
  | _, _ => False
  end.
Proof.
  unfold _determine_api_url, _determine_graphql_url.
  destruct (lowered_hostname check base) as [h|e]; simpl; [|reflexivity].
  destruct (String.eqb h "github.com"); [left; split; reflexivity|].
  right. repeat split.
  - apply self_hosted_rest_not_public.
  - apply self_hosted_graph_not_public.
Qed.

(** X8: trailing slashes on an input that carries its scheme never change
    the result: the normalised URL, and with it both roots, are those of
    the input without them. *)
Theorem trailing_slashes_ignored
    (check : string -> bool) (url : string) (n : nat) :
  has_scheme url = true ->
  _normalize_url (url ++ slashes n) = _normalize_url url
  /\ _determine_api_url check (_normalize_url (url ++ slashes n))
     = _determine_api_url check (_normalize_url url)
  /\ _determine_graphql_url check (_normalize_url (url ++ slashes n))
     = _determine_graphql_url check (_normalize_url url).
Proof.
  intros H. rewrite normalize_trailing by assumption. repeat split.
Qed.

Lemma trailing_slashes_ignored_witness :
  _normalize_url ("https://ghes.example.com" ++ slashes 3)
  = "https://ghes.example.com".
Proof.
  refine (eq_trans
            (proj1 (trailing_slashes_ignored (fun _ => true)
                      "https://ghes.example.com" 3 _)) _);
    reflexivity.
Defined.

End ResolveFacts.

(** ** Host names of URLs with a path *)
Section PathFacts.
  Import Str Py urllib_parse github_api_handler.

Lemma remove_app (chars : ascii -> bool) (a b : string) :
  remove chars (a ++ b) = remove chars a ++ remove chars b.
Proof.
  induction a as [|x a IH]; simpl; [reflexivity|].
  destruct (chars x); simpl; now rewrite IH.
Qed.

Lemma take_app (a b : string) : take (String.length a) (a ++ b) = a.
Proof. induction a; simpl; [now destruct b | congruence]. Qed.

Lemma find_from_app_absent (c : ascii) (a b : string) :
  contains c a = false ->
  find_from c 0 (a ++ b)
  = option_map (Nat.add (String.length a)) (find_from c 0 b).
Proof.
  induction a as [|x a IH]; simpl; intros H.
  - now destruct (find_from c 0 b).
  - apply orb_false_iff in H as [Hx Ha]. rewrite Hx, (IH Ha).
    now destruct (find_from c 0 b).
Qed.

Lemma find_from_found (c : ascii) (a b : string) :
  contains c a = false ->
  find_from c 0 (a ++ String c b) = Some (String.length a).
Proof.
  intros H. rewrite find_from_app_absent by assumption. simpl.
  rewrite Ascii.eqb_refl. simpl. f_equal. lia.
Qed.

Lemma find_from_later (c : ascii) (a b : string) (x : ascii) :
  contains c a = false -> Ascii.eqb x c = false ->
  match find_from c 0 (a ++ String x b) with
  | Some k => String.length a < k
  | None => True
  end.
Proof.
  intros H Hx. rewrite find_from_app_absent by assumption. simpl.
  rewrite Hx. destruct (find_from c 0 b); simpl; [lia | exact I].
Qed.

Lemma splitnetloc_path (n u : string) :
  forallb netloc_plain n = true ->
  _splitnetloc ("//" ++ n ++ String "/" u) 2 = (n, String "/" u).
Proof.
  intros H. unfold _splitnetloc.
  assert (Hs : find_from "/" 2 ("//" ++ n ++ String "/" u)
               = Some (2 + String.length n)).
  { simpl. rewrite find_from_found by (apply netloc_plain_absent; auto).
    reflexivity. }
  assert (Hq : match find_from "?" 2 ("//" ++ n ++ String "/" u) with
               | Some k => 2 + String.length n < k
               | None => True
               end).
  { simpl. pose proof (find_from_later "?" n u "/") as Hl.
    destruct (find_from "?" 0 (n ++ String "/" u)); simpl; [|exact I].
    assert (String.length n < n0); [|lia].
    apply Hl; [apply netloc_plain_absent; auto | reflexivity]. }
  assert (Hh : match find_from "#" 2 ("//" ++ n ++ String "/" u) with
               | Some k => 2 + String.length n < k
               | None => True
               end).
  { simpl. pose proof (find_from_later "#" n u "/") as Hl.
    destruct (find_from "#" 0 (n ++ String "/" u)); simpl; [|exact I].
    assert (String.length n < n0); [|lia].
    apply Hl; [apply netloc_plain_absent; auto | reflexivity]. }
  cbn [fold_left]. rewrite Hs.
  assert (Hlen : String.length ("//" ++ n ++ String "/" u)
                 = 2 + String.length n + S (String.length u)).
  { simpl. rewrite length_app. simpl. lia. }
  destruct (find_from "?" 2 _), (find_from "#" 2 _);
    match goal with
    | |- (take (?d - 2) _, drop ?d _) = _ =>
        replace d with (2 + String.length n) by lia
    end.
  all: replace (2 + String.length n - 2) with (String.length n) by lia.
  all: change (drop 2 ("//" ++ n ++ String "/" u)) with (n ++ String "/" u).
  all: change (drop (2 + String.length n) ("//" ++ n ++ String "/" u))
         with (drop (String.length n) (n ++ String "/" u)).
  all: now rewrite take_app, drop_app.
Qed.

Lemma urlsplit_with_path (check : string -> bool) (sch n u : string) :
  sch = "http" \/ sch = "https" ->
  forallb netloc_plain n = true ->
  urlsplit check (sch ++ "://" ++ n ++ String "/" u)
  = Ok {| scheme := sch; netloc := n;
          rest := String "/" (remove unsafe_url_byte u) |}.
Proof.
  intros Hs H.
  assert (Hr : remove unsafe_url_byte (n ++ String "/" u)
               = n ++ String "/" (remove unsafe_url_byte u)).
  { rewrite remove_app. f_equal. apply remove_none. revert H.
    apply forallb_impl. unfold netloc_plain. intros c Hc.
    now apply andb_true_iff in Hc as [Hc _]. }
  assert (Hb1 : contains "[" n = false) by (apply netloc_plain_absent; auto).
  assert (Hb2 : contains "]" n = false) by (apply netloc_plain_absent; auto).
  unfold urlsplit.
  destruct Hs as [-> | ->].
  - change (remove unsafe_url_byte
              (lstrip c0_control_or_space
                 ("http" ++ "://" ++ n ++ String "/" u)))
      with ("http://" ++ remove unsafe_url_byte (n ++ String "/" u)).
    rewrite Hr. set (m := n ++ String "/" (remove unsafe_url_byte u)).
    change (find ":" ("http://" ++ m)) with (Some 4).
    change ("http://" ++ m) with (String "h" (append "ttp://" m)).
    cbv iota beta.
    change (drop (4 + 1) _) with ("//" ++ m).
    change (take 4 _) with "http".
    set (cond := _ && _ && _). vm_compute in cond. subst cond.
    cbv iota beta.
    change (take 2 ("//" ++ m)) with "//".
    change (String.eqb "//" "//") with true. cbv iota.
    subst m. rewrite splitnetloc_path by assumption.
    change (lower "http") with "http".
    now rewrite Hb1, Hb2.
  - change (remove unsafe_url_byte
              (lstrip c0_control_or_space
                 ("https" ++ "://" ++ n ++ String "/" u)))
      with ("https://" ++ remove unsafe_url_byte (n ++ String "/" u)).
    rewrite Hr. set (m := n ++ String "/" (remove unsafe_url_byte u)).
    change (find ":" ("https://" ++ m)) with (Some 5).
    change ("https://" ++ m) with (String "h" (append "ttps://" m)).
    cbv iota beta.
    change (drop (5 + 1) _) with ("//" ++ m).
    change (take 5 _) with "https".
    set (cond := _ && _ && _). vm_compute in cond. subst cond.
    cbv iota beta.
    change (take 2 ("//" ++ m)) with "//".
    change (String.eqb "//" "//") with true. cbv iota.
    subst m. rewrite splitnetloc_path by assumption.
    change (lower "https") with "https".
    now rewrite Hb1, Hb2.
Qed.

(** The host name of a plain network location [h ++ t], [t] being empty
    or a colon and a port. *)
Lemma hostname_of_netloc (sch h t rest : string) :
  h <> "" -> forallb host_plain h = true ->
  t = "" \/ (exists port, t = String ":" port
                          /\ forallb netloc_plain port = true) ->
  hostname {| scheme := sch; netloc := h ++ t; rest := rest |}
  = Some (lower h).
Proof.
  intros Hne Hh Ht.
  assert (Hn : forallb netloc_plain (h ++ t) = true).
  { rewrite forallb_app, (host_plain_netloc _ Hh).
    destruct Ht as [-> | [port [-> Hp]]]; simpl; [reflexivity|].
    now rewrite Hp. }
  assert (Hc : contains ":" h = false /\ contains "%" h = false).
  { split; apply (forallb_absent host_plain); try assumption;
      unfold host_plain; apply andb_false_r. }
  destruct Hc as [Hcolon Hpct].
  unfold hostname, _hostinfo. simpl netloc.
  rewrite rpartition_absent by (apply netloc_plain_absent; auto).
  rewrite (partition_absent "[") by (apply netloc_plain_absent; auto).
  assert (Hp : exists found r, partition ":" (h ++ t) = (h, found, r)).
  { destruct Ht as [-> | [port [-> _]]].
    - rewrite append_nil_r, partition_absent by assumption. eauto.
    - rewrite partition_first by assumption. eauto. }
  destruct Hp as [found [r ->]].
  destruct h as [|a h']; [contradiction|]. cbv iota beta. simpl is_empty.
  cbv iota. rewrite partition_absent by assumption.
  simpl. now rewrite append_nil_r.
Qed.

(** The host name of [scheme://host/path] and [scheme://host:port/path]. *)
Lemma url_hostname_with_path (check : string -> bool) (sch h t u : string) :
  sch = "http" \/ sch = "https" ->
  h <> "" -> forallb host_plain h = true ->
  t = "" \/ (exists port, t = String ":" port
                          /\ forallb netloc_plain port = true) ->
  url_hostname check (sch ++ "://" ++ (h ++ t) ++ String "/" u)
  = Ok (Some (lower h)).
Proof.
  intros Hs Hne Hh Ht.
  assert (Hn : forallb netloc_plain (h ++ t) = true).
  { rewrite forallb_app, (host_plain_netloc _ Hh).
    destruct Ht as [-> | [port [-> Hp]]]; simpl; [reflexivity|].
    now rewrite Hp. }
  unfold url_hostname, urlparse. rewrite urlsplit_with_path by assumption.
  simpl. f_equal. now apply hostname_of_netloc.
Qed.

Lemma rstrip_cons_shape (chars : ascii -> bool) (a : ascii) (x : string) :
  rstrip chars (String a x) = ""
  \/ exists t, rstrip chars (String a x) = String a t.
Proof.
  simpl. destruct (rstrip chars x).
  - destruct (chars a); eauto.
  - eauto.
Qed.

(** Normalising [p ++ "/" ++ u], [p] carrying its scheme and not ending
    with a slash: the result is [p], or [p] and a path. *)
Lemma normalize_with_path (p u : string) :
  has_scheme p = true -> rstrip slash p = p ->
  _normalize_url (p ++ String "/" u) = p
  \/ exists u', _normalize_url (p ++ String "/" u) = p ++ String "/" u'.
Proof.
  intros Hs Hp. rewrite normalize_unfold.
  assert (Hs' : has_scheme (p ++ String "/" u) = true).
  { apply has_scheme_split in Hs as [r [-> | ->]]; rewrite append_assoc;
      [apply has_scheme_app_http | apply has_scheme_app_https]. }
  rewrite Hs'.
  destruct (rstrip_after_prefix p (String "/" u)) as [[_ ->] | [Hne ->]].
  - left. exact Hp.
  - right. destruct (rstrip_cons_shape slash "/" u) as [E | [t E]];
      [contradiction | rewrite E; eauto].
Qed.

End PathFacts.

Section PathExtras.
  Import Str Py urllib_parse github_api_handler.

(** [":port"], or nothing. *)
Definition port_suffix (port : option string) : string :=
  match port with
  | Some p => String ":" p
  | None => ""
  end.

Lemma port_suffix_plain (port : option string) :
  match port with Some p => forallb is_digit p = true | None => True end ->
  port_suffix port = ""
  \/ exists p, port_suffix port = String ":" p
               /\ forallb netloc_plain p = true.
Proof.
  destruct port as [p|]; simpl; [|now left].
  intros H. right. exists p. split; [reflexivity | now apply digit_plain].
Qed.

(** The host name of the normalised [scheme://host/path] or
    [scheme://host:port/path]. *)
Lemma normalized_host_before_path
    (check : string -> bool) (sch host path : string) (port : option string) :
  sch = "http" \/ sch = "https" ->
  host <> "" ->
  forallb host_plain host = true ->
  match port with Some p => forallb is_digit p = true | None => True end ->
  url_hostname check
    (_normalize_url
       (sch ++ "://" ++ host ++ port_suffix port ++ String "/" path))
  = Ok (Some (lower host)).
Proof.
  intros Hs Hne Hh Hp.
  pose proof (port_suffix_plain port Hp) as Ht.
  set (t := port_suffix port) in *.
  assert (Hn : forallb netloc_plain (host ++ t) = true).
  { rewrite forallb_app, (host_plain_netloc _ Hh).
    destruct Ht as [-> | [p [-> Hpl]]]; simpl; [reflexivity|].
    now rewrite Hpl. }
  assert (Hnn : host ++ t <> "").
  { destruct host; [contradiction | discriminate]. }
  set (p := sch ++ "://" ++ host ++ t).
  assert (Hnorm : _normalize_url p = p) by now apply normalize_plain.
  assert (Hsch : has_scheme p = true).
  { unfold p. destruct Hs as [-> | ->];
      [apply has_scheme_app_http | apply has_scheme_app_https]. }
  assert (Hrs : rstrip slash p = p).
  { rewrite normalize_unfold, Hsch in Hnorm. exact Hnorm. }
  replace (sch ++ "://" ++ host ++ t ++ String "/" path)
    with (p ++ String "/" path)
    by (unfold p; now rewrite !append_assoc).
  destruct (normalize_with_path p path Hsch Hrs) as [-> | [u' ->]].
  - now apply url_hostname_plain.
  - unfold p.
    replace ((sch ++ "://" ++ host ++ t) ++ String "/" u')
      with (sch ++ "://" ++ (host ++ t) ++ String "/" u')
      by now rewrite !append_assoc.
    now apply url_hostname_with_path.
Qed.

(** X9: a path after the host does not take part in the decision, but it
    stays in a self-hosted root.  For a base host [scheme://host/path] or
    [scheme://host:port/path], with any path, the parsed host name is the
    lowercased [host]: when that is ["github.com"] the roots are the public
    ones, otherwise they are the normalised input, path included, followed
    by ["/api/v3"] and ["/api/graphql"]. *)
Theorem path_keeps_host
    (check : string -> bool) (sch host path : string) (port : option string) :
  sch = "http" \/ sch = "https" ->
  host <> "" ->
  forallb host_plain host = true ->
  match port with Some p => forallb is_digit p = true | None => True end ->
  let base :=
    _normalize_url
      (sch ++ "://" ++ host ++ port_suffix port ++ String "/" path) in
  url_hostname check base = Ok (Some (lower host))
  /\ _determine_api_url check base
     = (if String.eqb (lower host) "github.com" then Ok public_rest_root
        else Ok (base ++ "/api/v3"))
  /\ _determine_graphql_url check base
     = (if String.eqb (lower host) "github.com" then Ok public_graph_root
        else Ok (base ++ "/api/graphql")).
Proof.
  intros Hs Hne Hh Hp base.
  pose proof (normalized_host_before_path check sch host path port
                Hs Hne Hh Hp) as Hhost.
  fold base in Hhost. split; [exact Hhost|].
  destruct (resolve_by_hostname check _ _ Hhost) as [Ha Hg].
  rewrite lower_idem in Ha, Hg. now split.
Qed.

Lemma path_keeps_host_witness :
  _determine_api_url (fun _ => true)
    (_normalize_url "https://GHES.example.com:8443/some/path/")
  = Ok "https://GHES.example.com:8443/some/path/api/v3".
Proof.
  refine (eq_trans
            (proj1 (proj2 (path_keeps_host (fun _ => true) "https"
                             "GHES.example.com" "some/path/" (Some "8443")
                             _ _ _ _))) _);
    first [reflexivity | discriminate | now right].
Defined.

(** X10: the scheme test of [_normalize_url] is case-sensitive.  An input
    starting with ["HTTP://"] or ["HTTPS://"] gets ["https://"] in front,
    so that the parsed host name is the input's scheme in lower case and
    the roots are those of a self-hosted deployment, whatever follows:
    ["HTTPS://github.com"] does not resolve to the public roots. *)
Theorem uppercase_scheme_is_a_host (check : string -> bool) (r : string) :
  (url_hostname check (_normalize_url ("HTTPS://" ++ r)) = Ok (Some "https")
   /\ _determine_api_url check (_normalize_url ("HTTPS://" ++ r))
      = Ok (_normalize_url ("HTTPS://" ++ r) ++ "/api/v3")
   /\ _determine_graphql_url check (_normalize_url ("HTTPS://" ++ r))
      = Ok (_normalize_url ("HTTPS://" ++ r) ++ "/api/graphql"))
  /\ (url_hostname check (_normalize_url ("HTTP://" ++ r)) = Ok (Some "http")
      /\ _determine_api_url check (_normalize_url ("HTTP://" ++ r))
         = Ok (_normalize_url ("HTTP://" ++ r) ++ "/api/v3")
      /\ _determine_graphql_url check (_normalize_url ("HTTP://" ++ r))
         = Ok (_normalize_url ("HTTP://" ++ r) ++ "/api/graphql"))
  /\ _determine_api_url check (_normalize_url "HTTPS://github.com")
     = Ok "https://HTTPS://github.com/api/v3".
Proof.
  assert (E1 : _normalize_url ("HTTPS://" ++ r)
               = _normalize_url
                   ("https" ++ "://" ++ "HTTPS" ++ port_suffix (Some "")
                      ++ String "/" (String "/" r))).
  { change ("https" ++ "://" ++ "HTTPS" ++ port_suffix (Some "")
              ++ String "/" (String "/" r))
      with ("https://" ++ "HTTPS://" ++ r).
    rewrite !normalize_unfold.
    change (has_scheme ("HTTPS://" ++ r)) with false.
    now rewrite has_scheme_app_https. }
  assert (E2 : _normalize_url ("HTTP://" ++ r)
               = _normalize_url
                   ("https" ++ "://" ++ "HTTP" ++ port_suffix (Some "")
                      ++ String "/" (String "/" r))).
  { change ("https" ++ "://" ++ "HTTP" ++ port_suffix (Some "")
              ++ String "/" (String "/" r))
      with ("https://" ++ "HTTP://" ++ r).
    rewrite !normalize_unfold.
    change (has_scheme ("HTTP://" ++ r)) with false.
    now rewrite has_scheme_app_https. }
  assert (H1 : url_hostname check (_normalize_url ("HTTPS://" ++ r))
               = Ok (Some "https")).
  { rewrite E1.
    apply (normalized_host_before_path check "https" "HTTPS"
             (String "/" r) (Some ""));
      first [reflexivity | discriminate | now right]. }
  assert (H2 : url_hostname check (_normalize_url ("HTTP://" ++ r))
               = Ok (Some "http")).
  { rewrite E2.
    apply (normalized_host_before_path check "https" "HTTP"
             (String "/" r) (Some ""));
      first [reflexivity | discriminate | now right]. }
  split; [|split; [|reflexivity]].
  - split; [exact H1|]. exact (resolve_by_hostname check _ _ H1).
  - split; [exact H2|]. exact (resolve_by_hostname check _ _ H2).
Qed.

End PathExtras.

(** ** The generator against any service *)
Section GeneratorFacts.
  Import Str Py users_dump_slack.
  Local Open Scope list_scope.

  Variable Client : Type.
  Variable users_list : Client -> Z -> option string -> Client * call_result.
  Variable time_sleep : Z -> result unit.







End GeneratorFacts.

(** ** Retries and services that never finish *)
Section RetryFacts.
  Import Str Py users_dump_slack.
  Local Open Scope list_scope.

(** [n] failed attempts with the same cursor, each followed by a sleep. *)
Fixpoint attempts (n : nat) (limit : Z) (cursor : option string) (d : Z)
  : list event :=
  match n with
  | O => []
  | S n' => Call limit cursor :: Sleep d :: attempts n' limit cursor d
  end.

(** A service that is always rate-limited. *)
Definition always_limited (hs : list (string * string))
  : unit -> Z -> option string -> unit * call_result :=
  fun _ _ _ => (tt, ratelimited hs).

(** A service that always has one more page. *)
Definition always_more (ms : list Member) (c : string)
  : unit -> Z -> option string -> unit * call_result :=
  fun _ _ _ => (tt, page_with_cursor (ms, c)).

Lemma run_attempts (time_sleep : Z -> result unit)
    (hs : list (string * string)) (d : Z) (n : nat) (rest : Script)
    (fuel : nat) (limit : Z) (cursor : option string) :
  retry_delay {| error := Some "ratelimited"; headers := hs |} = Ok d ->
  time_sleep d = Ok tt ->
  run time_sleep (n + fuel) (repeat (ratelimited hs) n ++ rest) limit cursor
  = (attempts n limit cursor d ++ fst (run time_sleep fuel rest limit cursor),
     snd (run time_sleep fuel rest limit cursor)).
Proof.
  intros Hd Hs. induction n as [|n IH].
  - simpl. now destruct (run _ _ _ _ _).
  - cbn [repeat app Nat.add].
    rewrite (run_ratelimited _ _ _ _ _ _ _ Hd Hs), IH. reflexivity.
Qed.

Lemma always_limited_step (time_sleep : Z -> result unit)
    (hs : list (string * string)) (n : nat) (limit : Z)
    (cursor : option string) :
  fetch_loop unit (always_limited hs) time_sleep (S n) tt limit cursor
  = match retry_delay {| error := Some "ratelimited"; headers := hs |} with
    | Raise e => ([Call limit cursor], Failed e)
    | Ok delay =>
        match time_sleep delay with
        | Raise e => ([Call limit cursor], Failed e)
        | Ok _ =>
            (Call limit cursor :: Sleep delay
               :: fst (fetch_loop unit (always_limited hs) time_sleep n tt
                         limit cursor),
             snd (fetch_loop unit (always_limited hs) time_sleep n tt
                    limit cursor))
        end
    end.
Proof.
  cbn [fetch_loop]. unfold always_limited at 1, ratelimited. cbn.
  destruct (retry_delay _); [|reflexivity].
  destruct (time_sleep a); [|reflexivity].
  now destruct (fetch_loop _ _ _ _ _ _ _).
Qed.

Lemma always_more_step (time_sleep : Z -> result unit) (ms : list Member)
    (c : string) (n : nat) (limit : Z) (cursor : option string) :
  c <> "" ->
  fetch_loop unit (always_more ms c) time_sleep (S n) tt limit cursor
  = ((Call limit cursor :: map Yield ms)
       ++ fst (fetch_loop unit (always_more ms c) time_sleep n tt limit
                 (Some c)),
     snd (fetch_loop unit (always_more ms c) time_sleep n tt limit (Some c))).
Proof.
  intros Hc. cbn [fetch_loop]. unfold always_more at 1, page_with_cursor.
  cbn. destruct c as [|a c']; [contradiction|]. cbn.
  now destruct (fetch_loop _ _ _ _ _ _ _).
Qed.

(** X12: the retry has no ceiling.  After [n] rate-limited failures in a
    row, for any [n], the generator has slept [n] times and called
    [users_list] [n + 1] times with the same cursor, and goes on with the
    page it then gets; against a service that is rate-limited forever it
    never returns and never raises, however long it runs. *)
Theorem retries_are_unbounded
    (time_sleep : Z -> result unit) (hs : list (string * string)) (d : Z)
    (n : nat) (last : SlackResponse) (limit : Z) :
  retry_delay {| error := Some "ratelimited"; headers := hs |} = Ok d ->
  time_sleep d = Ok tt ->
  read_cursor last = None ->
  fetch_all_users Script scripted time_sleep (S n)
    (repeat (ratelimited hs) n ++ [Returns last]) limit
  = (attempts n limit None d
       ++ Call limit None :: map Yield (members last), Exhausted)
  /\ fetch_all_users unit (always_limited hs) time_sleep n tt limit
     = (attempts n limit None d, Running).
Proof.
  intros Hd Hs Hl. split.
  - unfold fetch_all_users. fold (run time_sleep).
    replace (S n) with (n + 1) by lia.
    rewrite (run_attempts _ _ _ _ _ _ _ _ Hd Hs), run_last; [reflexivity|].
    now rewrite Hl.
  - unfold fetch_all_users. generalize (@None string) as cursor.
    induction n as [|n IH]; intros cursor; [reflexivity|].
    rewrite always_limited_step, Hd, Hs, IH. reflexivity.
Qed.

Lemma retries_are_unbounded_witness :
  fetch_all_users unit (always_limited []) sleep_nonnegative 3 tt 200
  = ([Call 200 None; Sleep 1; Call 200 None; Sleep 1;
      Call 200 None; Sleep 1], Running).
Proof.
  apply (retries_are_unbounded sleep_nonnegative [] 1 3
           {| members := []; response_metadata := None |} 200);
    reflexivity.
Defined.

(** The requests of [n] pages served by [always_more]. *)
Fixpoint endless_trace (n : nat) (limit : Z) (cursor : option string)
    (ms : list Member) (c : string) : list event :=
  match n with
  | O => []
  | S n' =>
      (Call limit cursor :: map Yield ms)
        ++ endless_trace n' limit (Some c) ms c
  end.

(** X13: the generator sets no bound on the number of pages.  Against a
    service whose every page carries a non-empty next cursor it never
    returns: after any number [n] of iterations it has made [n] calls,
    yielded the records of [n] pages, and is still running. *)
Theorem pagination_is_unbounded
    (time_sleep : Z -> result unit) (ms : list Member) (c : string)
    (n : nat) (limit : Z) :
  c <> "" ->
  fetch_all_users unit (always_more ms c) time_sleep n tt limit
  = (endless_trace n limit None ms c, Running)
  /\ length (requested (endless_trace n limit None ms c)) = n
  /\ length (yielded (endless_trace n limit None ms c)) = n * length ms.
Proof.
  intros Hc. split; [|split].
  - unfold fetch_all_users. generalize (@None string) as cursor.
    induction n as [|n IH]; intros cursor; [reflexivity|].
    rewrite always_more_step, IH by assumption. reflexivity.
  - generalize (@None string) as cursor.
    induction n as [|n IH]; intros cursor; simpl; [reflexivity|].
    rewrite requested_app, requested_yields. simpl. now rewrite IH.
  - generalize (@None string) as cursor.
    induction n as [|n IH]; intros cursor; simpl; [reflexivity|].
    rewrite yielded_app, yielded_yields, List.length_app, IH. reflexivity.
Qed.

Lemma pagination_is_unbounded_witness :
  fetch_all_users unit (always_more [JStr "U1"] "c") sleep_nonnegative 2 tt 200
  = ([Call 200 None; Yield (JStr "U1");
      Call 200 (Some "c"); Yield (JStr "U1")], Running).
Proof.
  apply (pagination_is_unbounded sleep_nonnegative [JStr "U1"] "c" 2 200).
  discriminate.
Defined.

End RetryFacts.

(** ** The [Retry-After] header *)
Section RetryAfterFacts.
  Import Str Py users_dump_slack.
  Local Open Scope list_scope.

(** Characters an integer literal can hold: digits, the whitespace around
    it, a sign, underscores. *)
Definition numeric_char (c : ascii) : bool :=
  is_digit c || is_space c || contains c "+-_".

Lemma forallb_lstrip (p ws : ascii -> bool) (s : string) :
  (forall c, ws c = true -> p c = true) ->
  forallb p (lstrip ws s) = true -> forallb p s = true.
Proof.
  intros Hw. induction s as [|a s IH]; simpl; [reflexivity|].
  destruct (ws a) eqn:Ea; [|exact (fun H => H)].
  intros H. now rewrite (Hw _ Ea), (IH H).
Qed.

Lemma forallb_rstrip (p ws : ascii -> bool) (s : string) :
  (forall c, ws c = true -> p c = true) ->
  forallb p (rstrip ws s) = true -> forallb p s = true.
Proof.
  intros Hw. induction s as [|a s IH]; simpl; [reflexivity|].
  destruct (rstrip ws s) as [|b t] eqn:E.
  - assert (Hs : forallb p s = true).
    { apply IH. reflexivity. }
    destruct (ws a) eqn:Ea; simpl.
    + intros _. now rewrite (Hw _ Ea), Hs.
    + intros H. apply andb_true_iff in H as [Ha _]. now rewrite Ha, Hs.
  - cbn [forallb]. intros H. apply andb_true_iff in H as [Ha Ht].
    now rewrite Ha, (IH Ht).
Qed.

Lemma digits_ok_numeric (prev : bool) (s : string) :
  digits_ok prev s = true -> forallb numeric_char s = true.
Proof.
  revert prev; induction s as [|a s IH]; intros prev; simpl;
    [reflexivity|].
  unfold numeric_char at 1.
  destruct (is_digit a) eqn:Ed; simpl.
  - apply IH.
  - destruct (Ascii.eqb_spec a "_") as [-> | Hn]; [|discriminate].
    intros H. apply andb_true_iff in H as [_ H].
    rewrite (IH _ H). reflexivity.
Qed.

(** [int] raises [ValueError] on any text holding a character that is not
    a digit, whitespace, a sign or an underscore. *)
Lemma int_of_str_rejects (text : string) :
  forallb numeric_char text = false -> int_of_str text = Raise invalid_literal.
Proof.
  intros H. unfold int_of_str.
  set (s := rstrip is_space (lstrip is_space text)).
  assert (Hs : forallb numeric_char s = false).
  { destruct (forallb numeric_char s) eqn:E; [|reflexivity].
    assert (Hw : forall c, is_space c = true -> numeric_char c = true).
    { intros c Hc. unfold numeric_char. rewrite Hc.
      now rewrite orb_true_r. }
    apply (forallb_rstrip _ _ _ Hw), (forallb_lstrip _ _ _ Hw) in E.
    congruence. }
  assert (Hd : forall neg digits,
             (let '(negative, digits) :=
                match s with
                | String "-" t => (true, t)
                | String "+" t => (false, t)
                | _ => (false, s)
                end in (negative, digits)) = (neg, digits) ->
             digits_ok false digits = false).
  { intros neg digits E.
    destruct (digits_ok false digits) eqn:Ed; [|reflexivity].
    apply digits_ok_numeric in Ed.
    assert (forallb numeric_char s = true); [|congruence].
    destruct s as [|a t]; [reflexivity|].
    destruct (Ascii.eqb_spec a "-") as [-> | Hm].
    { inversion E; subst. simpl. exact Ed. }
    destruct (Ascii.eqb_spec a "+") as [-> | Hp].
    { inversion E; subst. simpl. exact Ed. }
    assert (E' : (false, String a t) = (neg, digits)).
    { rewrite <- E. clear -Hm Hp.
      destruct a as [[] [] [] [] [] [] [] []]; try reflexivity;
        exfalso; first [now apply Hm | now apply Hp]. }
    inversion E'; subst. exact Ed. }
  destruct (match s with
            | String "-" t => (true, t)
            | String "+" t => (false, t)
            | _ => (false, s)
            end) as [neg digits] eqn:E.
  now rewrite (Hd neg digits eq_refl).
Qed.

Lemma run_bad_delay (time_sleep : Z -> result unit)
    (hs : list (string * string)) (e : exn) (rest : Script) (fuel : nat)
    (limit : Z) (cursor : option string) :
  retry_delay {| error := Some "ratelimited"; headers := hs |} = Raise e ->
  run time_sleep (S fuel) (ratelimited hs :: rest) limit cursor
  = ([Call limit cursor], Failed e).
Proof.
  unfold run. intros Hd. simpl. unfold retry_delay in Hd |- *.
  simpl in Hd |- *. now rewrite Hd.
Qed.

(** X14: a rate-limited failure whose [Retry-After] header is not an
    integer literal (an HTTP date, say: any text with a character other
    than digits, whitespace, signs and underscores) ends the generator with
    the [ValueError] of [int], without sleeping and without calling again;
    the records of the pages before it have been yielded. *)
Theorem malformed_retry_after
    (time_sleep : Z -> result unit) (limit : Z)
    (pre : list (list Member * string)) (hs : list (string * string))
    (text : string) (rest : Script) (fuel : nat) :
  cursors_present pre ->
  dict_get "Retry-After" hs = Some text ->
  forallb numeric_char text = false ->
  length pre < fuel ->
  let out :=
    fetch_all_users Script scripted time_sleep fuel
      (map page_with_cursor pre ++ ratelimited hs :: rest) limit in
  out = (pages_trace limit None pre
           ++ [Call limit (cursor_after None pre)],
         Failed invalid_literal)
  /\ slept (fst out) = []
  /\ yielded (fst out) = concat (map fst pre).
Proof.
  intros Hpre Hh Ht Hf out.
  assert (E : out = (pages_trace limit None pre
                       ++ [Call limit (cursor_after None pre)],
                     Failed invalid_literal)).
  { unfold out, fetch_all_users. fold (run time_sleep).
    replace fuel with (length pre + S (fuel - S (length pre))) by lia.
    rewrite run_pages by assumption.
    rewrite (run_bad_delay _ _ invalid_literal); [reflexivity|].
    unfold retry_delay. simpl. rewrite Hh. now apply int_of_str_rejects. }
  split; [exact E|]. rewrite E. simpl. split.
  - rewrite slept_app, slept_pages. reflexivity.
  - rewrite yielded_app, yielded_pages. simpl. apply app_nil_r.
Qed.

Lemma malformed_retry_after_witness :
  fetch_all_users Script scripted sleep_nonnegative 2
    [page_with_cursor ([JStr "U1"], "c1");
     ratelimited [("Retry-After", "Wed, 21 Oct 2015 07:28:00 GMT")]] 200
  = ([Call 200 None; Yield (JStr "U1"); Call 200 (Some "c1")],
     Failed invalid_literal).
Proof.
  refine (proj1 (malformed_retry_after sleep_nonnegative 200
                   [([JStr "U1"], "c1")]
                   [("Retry-After", "Wed, 21 Oct 2015 07:28:00 GMT")]
                   "Wed, 21 Oct 2015 07:28:00 GMT" [] 2 _ _ _ _));
    first [reflexivity | repeat constructor; discriminate].
Defined.

End RetryAfterFacts.

(** ** [main] of [src/users_dump_slack.py]: filtering, rows, counters

    The loop of [main] over the records [fetch_all_users] yields, with the
    parsed arguments it reads.  The CSV file is the list of rows handed to
    [writer.writerow], each as the values [DictWriter] writes for its
    [fieldnames], in order; opening and writing the file succeed. *)
Module slack_dump.
  Import Str Py users_dump_slack.

(** The arguments the loop reads: [args.fields], [args.include_bots],
    [args.include_deleted]. *)
Record Args : Type := {
  fields : list string;
  include_bots : bool;
  include_deleted : bool
}.

(** [active], [deactivated], [bot], [app] *)
Record Counters : Type := {
  active : nat;
  deactivated : nat;
  bot : nat;
  app : nat
}.

Definition zero : Counters :=
  {| active := 0; deactivated := 0; bot := 0; app := 0 |}.

(** [d.get(key, default)]; a value that is no mapping has no [get]. *)
Definition get (d : json) (key : string) (default : json) : result json :=
  match d with
  | JObj items =>
      Ok match dict_get key items with
         | Some v => v
         | None => default
         end
  | _ => Raise github_api_handler.no_attribute_get
  end.

(** The two [continue] tests:
    [not args.include_bots and (user.get("is_bot", False) or
    user.get("is_app_user", False))], then
    [not args.include_deleted and user.get("deleted", False)]. *)
Definition skipped (args : Args) (user : Member) : result bool :=
  is_excluded_bot <-
    (if negb (include_bots args) then
       is_bot <- get user "is_bot" (JBool false) ;;
       if truthy is_bot then Ok true
       else
         is_app_user <- get user "is_app_user" (JBool false) ;;
         Ok (truthy is_app_user)
     else Ok false) ;;
  if is_excluded_bot then Ok true
  else if negb (include_deleted args) then
    deleted <- get user "deleted" (JBool false) ;;
    Ok (truthy deleted)
  else Ok false.

(** The value of [row[field]]. *)
Definition field_value (user : Member) (field : string) : result json :=
  if existsb (String.eqb field)
       ["id"; "name"; "deleted"; "is_bot"; "is_app_user"]
  then get user field (JStr "")
  else if String.eqb field "real_name"
  then get user "real_name" (JStr "")
  else
    profile <- get user "profile" (JObj []) ;;
    get profile field (JStr "").

(** The row of a record: the value of each field, in the order of
    [args.fields]. *)
Fixpoint row_values (user : Member) (fields : list string)
  : result (list json) :=
  match fields with
  | [] => Ok []
  | field :: fields' =>
      v <- field_value user field ;;
      vs <- row_values user fields' ;;
      Ok (v :: vs)
  end.

(** The counters after a written record. *)
Definition count (c : Counters) (user : Member) : result Counters :=
  deleted <- get user "deleted" (JBool false) ;;
  let c :=
    if truthy deleted
    then {| active := active c; deactivated := deactivated c + 1;
            bot := bot c; app := app c |}
    else {| active := active c + 1; deactivated := deactivated c;
            bot := bot c; app := app c |} in
  is_bot <- get user "is_bot" (JBool true) ;;
  let c :=
    if truthy is_bot
    then {| active := active c; deactivated := deactivated c;
            bot := bot c + 1; app := app c |}
    else c in
  is_app_user <- get user "is_app_user" (JBool true) ;;
  Ok (if truthy is_app_user
      then {| active := active c; deactivated := deactivated c;
              bot := bot c; app := app c + 1 |}
      else c).

(** The [for user in fetch_all_users(...)] loop: the rows written and the
    counters, or the exception that ended the loop. *)
Fixpoint dump (args : Args) (users : list Member) (c : Counters)
  : list (list json) * result Counters :=
  match users with
  | [] => ([], Ok c)
  | user :: users' =>
      match skipped args user with
      | Raise e => ([], Raise e)
      | Ok true => dump args users' c
      | Ok false =>
          match row_values user (fields args) with
          | Raise e => ([], Raise e)
          | Ok row =>
              match count c user with
              | Raise e => ([row], Raise e)
              | Ok c' =>
                  let '(rows, r) := dump args users' c' in
                  (row :: rows, r)
              end
          end
      end
  end.

(** [total = active + deactivated], as logged. *)
Definition total (c : Counters) : nat := active c + deactivated c.

End slack_dump.

Section DumpFacts.
  Import Str Py users_dump_slack slack_dump.
  Local Open Scope list_scope.

Lemma row_values_length (user : Member) (fs : list string) (row : list json) :
  row_values user fs = Ok row -> length row = length fs.
Proof.
  revert row; induction fs as [|f fs IH]; simpl; intros row.
  - now intros [= <-].
  - destruct (field_value user f); [|discriminate]. simpl.
    destruct (row_values user fs) as [vs|]; [|discriminate]. simpl.
    intros [= <-]. simpl. now rewrite (IH vs).
Qed.

Lemma count_total (c c' : Counters) (user : Member) :
  count c user = Ok c' -> total c' = S (total c).
Proof.
  unfold count, total.
  destruct (get user "deleted" (JBool false)) as [d|]; [|discriminate].
  destruct (get user "is_bot" (JBool true)) as [b|]; [|discriminate].
  destruct (get user "is_app_user" (JBool true)) as [a|]; [|discriminate].
  simpl. intros [= <-].
  destruct (truthy d), (truthy b), (truthy a); simpl; lia.
Qed.

(** X15: the total the script logs is the number of rows it wrote.  When
    the loop ends normally, [active + deactivated] equals the number of rows
    written, every row has one value per requested field, and there are no
    more rows than records. *)
Theorem total_is_rows_written
    (args : Args) (users : list Member) (rows : list (list json))
    (c : Counters) :
  dump args users zero = (rows, Ok c) ->
  total c = length rows
  /\ Forall (fun row => length row = length (fields args)) rows
  /\ length rows <= length users.
Proof.
  assert (H : forall c0 rows c,
             dump args users c0 = (rows, Ok c) ->
             total c = total c0 + length rows
             /\ Forall (fun row => length row = length (fields args)) rows
             /\ length rows <= length users).
  { induction users as [|user users' IH]; intros c0 rows' c'; simpl.
    - intros [= <- <-]. simpl. repeat split; [lia | constructor | lia].
    - destruct (skipped args user) as [[|]|]; [| |discriminate].
      + intros H. destruct (IH _ _ _ H) as [H1 [H2 H3]].
        repeat split; [assumption | assumption | lia].
      + destruct (row_values user (fields args)) as [row|] eqn:Er;
          [|discriminate].
        destruct (count c0 user) as [c1|] eqn:Ec; [|discriminate].
        destruct (dump args users' c1) as [rs r] eqn:Ed.
        intros [= <- ->]. destruct (IH _ _ _ Ed) as [H1 [H2 H3]].
        rewrite (count_total _ _ _ Ec) in H1. simpl.
        repeat split; [lia | | lia].
        constructor; [now apply row_values_length with user | assumption]. }
  intros Hd. destruct (H _ _ _ Hd) as [H1 H2]. split; [exact H1 | exact H2].
Qed.

(** Two bots, one of them also deleted, and one person. *)
Definition some_users : list Member :=
  [JObj [("id", JStr "U1"); ("is_bot", JBool false);
         ("is_app_user", JBool false); ("deleted", JBool false);
         ("profile", JObj [("email", JStr "a@example.com")])];
   JObj [("id", JStr "B1"); ("is_bot", JBool true);
         ("is_app_user", JBool false); ("deleted", JBool true)];
   JObj [("id", JStr "B2"); ("is_bot", JBool true);
         ("is_app_user", JBool false); ("deleted", JBool false)]].

Definition default_args : Args :=
  {| fields := ["id"; "email"]; include_bots := false;
     include_deleted := false |}.

Lemma total_is_rows_written_witness :
  total {| active := 1; deactivated := 0; bot := 0; app := 0 |}
  = length [[JStr "U1"; JStr "a@example.com"]].
Proof.
  apply (total_is_rows_written default_args some_users
           [[JStr "U1"; JStr "a@example.com"]]
           {| active := 1; deactivated := 0; bot := 0; app := 0 |}).
  reflexivity.
Defined.

(** The record is a mapping that has the key. *)
Definition has_key (key : string) (user : Member) : bool :=
  match user with
  | JObj items => dict_has key items
  | _ => false
  end.

(** The record is a mapping without the key. *)
Definition lacks_key (key : string) (user : Member) : bool :=
  match user with
  | JObj items => negb (dict_has key items)
  | _ => false
  end.

Lemma get_present (user : Member) (key : string) (d d' : json) :
  has_key key user = true -> get user key d = get user key d'.
Proof.
  destruct user; try discriminate. simpl. unfold dict_has.
  now destruct (dict_get key fields0).
Qed.

Lemma get_absent (user : Member) (key : string) (d : json) :
  lacks_key key user = true -> get user key d = Ok d.
Proof.
  destruct user; try discriminate. simpl. unfold dict_has.
  now destruct (dict_get key fields0).
Qed.

(** What the two tests leave: with bots excluded neither flag is truthy,
    with deleted records excluded [deleted] is not truthy. *)
Lemma kept_record (args : Args) (user : Member) :
  skipped args user = Ok false ->
  (include_bots args = false ->
   exists b a, get user "is_bot" (JBool false) = Ok b /\ truthy b = false
               /\ get user "is_app_user" (JBool false) = Ok a
               /\ truthy a = false)
  /\ (include_deleted args = false ->
      exists d, get user "deleted" (JBool false) = Ok d /\ truthy d = false).
Proof.
  unfold skipped. destruct (include_bots args); simpl.
  - destruct (include_deleted args); simpl.
    + intros _. split; discriminate.
    + destruct (get user "deleted" (JBool false)) as [d|]; [|discriminate].
      simpl. intros [= H]. split; [discriminate|]. intros _. now exists d.
  - destruct (get user "is_bot" (JBool false)) as [b|]; [|discriminate].
    simpl. destruct (truthy b) eqn:Eb; [discriminate|].
    destruct (get user "is_app_user" (JBool false)) as [a|]; [|discriminate].
    simpl. destruct (truthy a) eqn:Ea; [discriminate|].
    destruct (include_deleted args); simpl.
    + intros _. split; [|discriminate]. intros _. now exists b, a.
    + destruct (get user "deleted" (JBool false)) as [d|]; [|discriminate].
      simpl. intros [= H]. split; intros _; [now exists b, a | now exists d].
Qed.

(** Induction over the loop: [step] relates the counters before and after
    each written record. *)
Lemma dump_counters (args : Args) (P : Member -> Prop)
    (step : Counters -> Counters -> Prop) :
  (forall user c c',
      P user -> skipped args user = Ok false -> count c user = Ok c' ->
      step c c') ->
  forall (inv : nat -> Counters -> Prop),
    (forall n c c', inv n c -> step c c' -> inv (S n) c') ->
    forall users c0 rows c,
      Forall P users ->
      inv 0 c0 ->
      dump args users c0 = (rows, Ok c) ->
      inv (length rows) c.
Proof.
  intros Hstep inv Hinv.
  assert (H : forall users n c0 rows c,
             Forall P users -> inv n c0 ->
             dump args users c0 = (rows, Ok c) ->
             inv (n + length rows) c).
  { induction users as [|user users' IH]; intros n c0 rows c HP H0; simpl.
    - intros [= <- <-]. simpl. now rewrite Nat.add_0_r.
    - inversion HP as [|? ? Hu HP']; subst.
      destruct (skipped args user) as [[|]|] eqn:Es; [| |discriminate].
      + now apply IH.
      + destruct (row_values user (fields args)) as [row|]; [|discriminate].
        destruct (count c0 user) as [c1|] eqn:Ec; [|discriminate].
        destruct (dump args users' c1) as [rs r] eqn:Ed.
        intros [= <- ->]. simpl.
        replace (n + S (length rs)) with (S n + length rs) by lia.
        apply (IH (S n) c1); try assumption.
        apply (Hinv n c0); [assumption|]. now apply (Hstep user). }
  intros users c0 rows c HP H0 Hd. exact (H users 0 c0 rows c HP H0 Hd).
Qed.

(** X16: without [--include-deleted] no written record is counted as
    deactivated: when the loop ends normally, [deactivated] is 0 and
    [active] is the number of rows. *)
Theorem deleted_excluded
    (args : Args) (users : list Member) (rows : list (list json))
    (c : Counters) :
  include_deleted args = false ->
  dump args users zero = (rows, Ok c) ->
  deactivated c = 0 /\ active c = length rows.
Proof.
  intros Hi Hd.
  apply (dump_counters args (fun _ => True)
           (fun c c' => deactivated c' = deactivated c
                        /\ active c' = S (active c)))
    with (inv := fun n c => deactivated c = 0 /\ active c = n)
         (users := users) (c0 := zero); try assumption.
  - intros user c0 c' _ Hs Hc.
    destruct (kept_record _ _ Hs) as [_ Hk].
    destruct (Hk Hi) as [d [Hg Ht]]. unfold count in Hc.
    rewrite Hg in Hc. simpl in Hc. rewrite Ht in Hc.
    destruct (get user "is_bot" (JBool true)) as [b|]; [|discriminate].
    destruct (get user "is_app_user" (JBool true)) as [a|]; [|discriminate].
    simpl in Hc. injection Hc as <-.
    destruct (truthy b), (truthy a); simpl; split; lia.
  - intros n c0 c' [H1 H2] [H3 H4]. split; lia.
  - now apply Forall_forall.
  - now split.
Qed.

Lemma deleted_excluded_witness :
  deactivated {| active := 1; deactivated := 0; bot := 0; app := 0 |} = 0
  /\ active {| active := 1; deactivated := 0; bot := 0; app := 0 |}
     = length [[JStr "U1"; JStr "a@example.com"]].
Proof.
  apply (deleted_excluded default_args some_users
           [[JStr "U1"; JStr "a@example.com"]]
           {| active := 1; deactivated := 0; bot := 0; app := 0 |});
    reflexivity.
Defined.

(** X17: without [--include-bots] the bot and app counts are 0 for records
    that carry the flags.  The records counted are those that passed the
    filter, so when every record has an ["is_bot"] key [bot] ends at 0, and
    when every record has an ["is_app_user"] key [app] ends at 0. *)
Theorem bots_excluded_not_counted
    (args : Args) (users : list Member) (rows : list (list json))
    (c : Counters) :
  include_bots args = false ->
  dump args users zero = (rows, Ok c) ->
  (Forall (fun u => has_key "is_bot" u = true) users -> bot c = 0)
  /\ (Forall (fun u => has_key "is_app_user" u = true) users -> app c = 0).
Proof.
  intros Hi Hd. split; intros Hk.
  - apply (dump_counters args (fun u => has_key "is_bot" u = true)
             (fun c c' => bot c' = bot c))
      with (inv := fun _ c => bot c = 0)
           (users := users) (c0 := zero) (rows := rows); try assumption.
    + intros user c0 c' Hu Hs Hc.
      destruct (kept_record _ _ Hs) as [Hb _].
      destruct (Hb Hi) as [b [a [Hgb [Htb _]]]]. unfold count in Hc.
      destruct (get user "deleted" (JBool false)) as [d|]; [|discriminate].
      rewrite (get_present _ _ (JBool true) (JBool false) Hu), Hgb in Hc.
      simpl in Hc. rewrite Htb in Hc.
      destruct (get user "is_app_user" (JBool true)) as [a'|];
        [|discriminate].
      simpl in Hc. injection Hc as <-.
      destruct (truthy d), (truthy a'); reflexivity.
    + intros n c0 c' H1 H2. congruence.
    + reflexivity.
  - apply (dump_counters args (fun u => has_key "is_app_user" u = true)
             (fun c c' => app c' = app c))
      with (inv := fun _ c => app c = 0)
           (users := users) (c0 := zero) (rows := rows); try assumption.
    + intros user c0 c' Hu Hs Hc.
      destruct (kept_record _ _ Hs) as [Hb _].
      destruct (Hb Hi) as [b [a [_ [_ [Hga Hta]]]]]. unfold count in Hc.
      destruct (get user "deleted" (JBool false)) as [d|]; [|discriminate].
      destruct (get user "is_bot" (JBool true)) as [b'|]; [|discriminate].
      rewrite (get_present _ _ (JBool true) (JBool false) Hu), Hga in Hc.
      simpl in Hc. rewrite Hta in Hc. injection Hc as <-.
      destruct (truthy d), (truthy b'); reflexivity.
    + intros n c0 c' H1 H2. congruence.
    + reflexivity.
Qed.

Lemma bots_excluded_not_counted_witness :
  (Forall (fun u => has_key "is_bot" u = true) some_users ->
   bot {| active := 1; deactivated := 0; bot := 0; app := 0 |} = 0)
  /\ (Forall (fun u => has_key "is_app_user" u = true) some_users ->
      app {| active := 1; deactivated := 0; bot := 0; app := 0 |} = 0).
Proof.
  apply (bots_excluded_not_counted default_args some_users
           [[JStr "U1"; JStr "a@example.com"]]
           {| active := 1; deactivated := 0; bot := 0; app := 0 |});
    reflexivity.
Defined.

(** X18: a record without an ["is_bot"] key is counted as a bot, and one
    without an ["is_app_user"] key as an app user: the counters read the
    flags with the default [True].  When no record has the key, the count
    is the number of rows written, with or without [--include-bots]. *)
Theorem unflagged_counted_as_bots
    (args : Args) (users : list Member) (rows : list (list json))
    (c : Counters) :
  dump args users zero = (rows, Ok c) ->
  (Forall (fun u => lacks_key "is_bot" u = true) users ->
   bot c = length rows)
  /\ (Forall (fun u => lacks_key "is_app_user" u = true) users ->
      app c = length rows).
Proof.
  intros Hd. split; intros Hk.
  - apply (dump_counters args (fun u => lacks_key "is_bot" u = true)
             (fun c c' => bot c' = S (bot c)))
      with (inv := fun n c => bot c = n)
           (users := users) (c0 := zero); try assumption.
    + intros user c0 c' Hu _ Hc. unfold count in Hc.
      destruct (get user "deleted" (JBool false)) as [d|]; [|discriminate].
      rewrite (get_absent _ _ (JBool true) Hu) in Hc. simpl in Hc.
      destruct (get user "is_app_user" (JBool true)) as [a'|];
        [|discriminate].
      simpl in Hc. injection Hc as <-.
      destruct (truthy d), (truthy a'); simpl; lia.
    + intros n c0 c' H1 H2. lia.
    + reflexivity.
  - apply (dump_counters args (fun u => lacks_key "is_app_user" u = true)
             (fun c c' => app c' = S (app c)))
      with (inv := fun n c => app c = n)
           (users := users) (c0 := zero); try assumption.
    + intros user c0 c' Hu _ Hc. unfold count in Hc.
      destruct (get user "deleted" (JBool false)) as [d|]; [|discriminate].
      destruct (get user "is_bot" (JBool true)) as [b'|]; [|discriminate].
      rewrite (get_absent _ _ (JBool true) Hu) in Hc. simpl in Hc.
      injection Hc as <-.
      destruct (truthy d), (truthy b'); simpl; lia.
    + intros n c0 c' H1 H2. lia.
    + reflexivity.
Qed.

(** Two records that carry no flags. *)
Definition unflagged_users : list Member :=
  [JObj [("id", JStr "U1")]; JObj [("id", JStr "U2")]].

Lemma unflagged_counted_as_bots_witness :
  bot {| active := 2; deactivated := 0; bot := 2; app := 2 |}
  = length [[JStr "U1"; JStr ""]; [JStr "U2"; JStr ""]].
Proof.
  refine (proj1 (unflagged_counted_as_bots default_args unflagged_users
                   [[JStr "U1"; JStr ""]; [JStr "U2"; JStr ""]]
                   {| active := 2; deactivated := 0; bot := 2; app := 2 |}
                   _) _).
  - reflexivity.
  - repeat constructor.
Defined.

(** A record as the service sends it: a mapping whose ["profile"], when
    it has one, is a mapping. *)
Definition well_formed (user : Member) : Prop :=
  match user with
  | JObj items =>
      match dict_get "profile" items with
      | Some (JObj _) | None => True
      | Some _ => False
      end
  | _ => False
  end.

Lemma well_formed_get (user : Member) (key : string) (d : json) :
  well_formed user -> exists v, get user key d = Ok v.
Proof. destruct user; simpl; [contradiction .. | eauto]. Qed.

Lemma well_formed_field (user : Member) (field : string) :
  well_formed user -> exists v, field_value user field = Ok v.
Proof.
  intros H. unfold field_value.
  destruct (existsb _ _); [now apply well_formed_get|].
  destruct (String.eqb field "real_name"); [now apply well_formed_get|].
  destruct user; simpl in *; try contradiction.
  destruct (dict_get "profile" fields0) as [[]|]; simpl; try contradiction;
    eauto.
Qed.

Lemma well_formed_row (user : Member) (fs : list string) :
  well_formed user -> exists row, row_values user fs = Ok row.
Proof.
  intros H. induction fs as [|f fs [row IH]]; simpl; [eauto|].
  destruct (well_formed_field user f H) as [v ->]. rewrite IH. simpl. eauto.
Qed.

Lemma well_formed_count (user : Member) (c : Counters) :
  well_formed user -> exists c', count c user = Ok c'.
Proof.
  intros H. unfold count.
  destruct (well_formed_get user "deleted" (JBool false) H) as [d ->].
  destruct (well_formed_get user "is_bot" (JBool true) H) as [b ->].
  destruct (well_formed_get user "is_app_user" (JBool true) H) as [a ->].
  simpl. eauto.
Qed.

Lemma well_formed_skipped (args : Args) (user : Member) :
  well_formed user ->
  exists b, skipped args user = Ok b
            /\ (include_bots args = true -> include_deleted args = true ->
                b = false).
Proof.
  intros H. unfold skipped.
  destruct (well_formed_get user "deleted" (JBool false) H) as [d Hd].
  destruct (well_formed_get user "is_bot" (JBool false) H) as [b Hb].
  destruct (well_formed_get user "is_app_user" (JBool false) H) as [a Ha].
  rewrite Hb, Ha, Hd.
  destruct (include_bots args), (include_deleted args); simpl;
    destruct (truthy b); simpl; try destruct (truthy a); simpl;
    eexists; split; try reflexivity; congruence.
Qed.

(** X19: on records that are mappings with a mapping as profile (or none)
    the loop never raises; with [--include-bots] and [--include-deleted]
    it then writes one row per record, in the order received. *)
Theorem dump_well_formed (args : Args) (users : list Member) :
  Forall well_formed users ->
  exists rows c,
    dump args users zero = (rows, Ok c)
    /\ (include_bots args = true -> include_deleted args = true ->
        map Ok rows = map (fun u => row_values u (fields args)) users).
Proof.
  generalize zero as c0.
  induction users as [|user users' IH]; intros c0 H; cbn [dump].
  - exists [], c0. now split.
  - inversion H as [|? ? Hu Hrest]; subst.
    destruct (well_formed_skipped args user Hu) as [b [-> Hb]].
    destruct (well_formed_row user (fields args) Hu) as [row Hr].
    destruct (well_formed_count user c0 Hu) as [c1 Hc].
    destruct b.
    + destruct (IH c0 Hrest) as [rows [c [Hd Hall]]].
      exists rows, c. split; [exact Hd|]. intros Hib Hid.
      now specialize (Hb Hib Hid).
    + rewrite Hr, Hc. destruct (IH c1 Hrest) as [rows [c [-> Hall]]].
      exists (row :: rows), c. split; [reflexivity|]. intros Hib Hid.
      cbn [map]. now rewrite Hr, (Hall Hib Hid).
Qed.

Lemma dump_well_formed_witness :
  exists rows c,
    dump {| fields := ["id"]; include_bots := true; include_deleted := true |}
      some_users zero = (rows, Ok c)
    /\ (true = true -> true = true ->
        map Ok rows = map (fun u => row_values u ["id"]) some_users).
Proof.
  apply (dump_well_formed
           {| fields := ["id"]; include_bots := true;
              include_deleted := true |} some_users).
  repeat constructor.
Defined.

(** The keys of a record a row can depend on. *)
Definition row_keys : list string :=
  ["id"; "name"; "deleted"; "is_bot"; "is_app_user"; "real_name"; "profile"].

(** X20: a row is made from seven keys of the record and nothing else:
    the five top-level fields, ["real_name"] and ["profile"].  Two records
    that agree on these keys give the same row for every list of fields, so
    every other field ([email], [tz], [team_id], ...) is read from the
    profile and never from the record itself. *)
Theorem row_depends_on_row_keys
    (items items' : list (string * json)) (fs : list string) :
  (forall key, In key row_keys -> dict_get key items = dict_get key items') ->
  row_values (JObj items) fs = row_values (JObj items') fs.
Proof.
  intros H. induction fs as [|f fs IH]; simpl; [reflexivity|].
  rewrite IH. f_equal. unfold field_value.
  destruct (existsb (String.eqb f) _) eqn:Et.
  - apply existsb_exists in Et as [k [Hin Hk]].
    apply String.eqb_eq in Hk. subst k. simpl.
    rewrite (H f); [reflexivity|].
    unfold row_keys. simpl in Hin. simpl. tauto.
  - destruct (String.eqb f "real_name").
    + simpl. rewrite (H "real_name"); [reflexivity|]. simpl. tauto.
    + simpl. rewrite (H "profile"); [reflexivity|]. simpl. tauto.
Qed.

Lemma row_depends_on_row_keys_witness :
  row_values (JObj [("id", JStr "U1"); ("email", JStr "top@example.com")])
    ["id"; "email"]
  = row_values (JObj [("id", JStr "U1")]) ["id"; "email"].
Proof.
  apply (row_depends_on_row_keys
           [("id", JStr "U1"); ("email", JStr "top@example.com")]
           [("id", JStr "U1")] ["id"; "email"]).
  intros key Hin. simpl in Hin.
  repeat (destruct Hin as [<- | Hin]; [reflexivity|]). contradiction.
Defined.

End DumpFacts.

(** ** [src/users_map_saml_users_no_api.py]: normalising and joining

    A data frame is the list of its rows, in file order.  Of a row, the
    model keeps the columns the script names ([login], and [github_email]
    for the users) as text, the way [astype(str)] gives them, and the other
    columns as one value of any type.  The SAML frame has no column named
    [github_email] of its own. *)
Module saml_map.
  Import Str Py.

(** [str.isspace] below 256: what [str.strip()] removes. *)
Definition is_whitespace (c : ascii) : bool :=
  between 9 13 c || between 28 32 c
  || Nat.eqb (code c) 133 || Nat.eqb (code c) 160.

(** [s.strip()] *)
Definition strip (s : string) : string :=
  rstrip is_whitespace (lstrip is_whitespace s).

(** One cell under [.astype(str).str.strip().str.lower()] *)
Definition normalize_cell (s : string) : string := lower (strip s).

Section Frames.

  (** The columns of a SAML row, and of a user row, besides the named
      ones. *)
  Variables S U : Type.

Record SamlRow : Type := {
  saml_login : string;
  saml_rest : S
}.

Record UserRow : Type := {
  user_login : string;
  github_email : string;
  user_rest : U
}.

(** [load_and_normalize], on the rows: lines 79 to 81. *)
Definition normalize_saml (rows : list SamlRow) : list SamlRow :=
  map (fun r => {| saml_login := normalize_cell (saml_login r);
                   saml_rest := saml_rest r |}) rows.

Definition normalize_users (rows : list UserRow) : list UserRow :=
  map (fun r => {| user_login := normalize_cell (user_login r);
                   github_email := normalize_cell (github_email r);
                   user_rest := user_rest r |}) rows.

(** The user rows with the login of [s]. *)
Definition matching (s : SamlRow) (users : list UserRow) : list UserRow :=
  filter (fun u => String.eqb (user_login u) (saml_login s)) users.

(** [pd.merge(saml_df, users_df, how='left', on='login')]: every SAML row,
    in order, once with each user row of the same login, or once with the
    user columns missing when there is none. *)
Definition merge (saml : list SamlRow) (users : list UserRow)
  : list (SamlRow * option UserRow) :=
  flat_map (fun s =>
              match matching s users with
              | [] => [(s, None)]
              | found => map (fun u => (s, Some u)) found
              end) saml.


(** [users_df[~users_df['login'].isin(saml_df['login'])]] *)
Definition unmatched_github (saml : list SamlRow) (users : list UserRow)
  : list UserRow :=
  filter (fun u =>
            negb (existsb (String.eqb (user_login u)) (map saml_login saml)))
    users.



End Frames.
End saml_map.

Section KeyFacts.
  Import Str Py saml_map.

Lemma lstrip_app_all (ws : ascii -> bool) (a s : string) :
  forallb ws a = true -> lstrip ws (a ++ s) = lstrip ws s.
Proof.
  induction a as [|x a IH]; simpl; [reflexivity|]. intros H.
  apply andb_true_iff in H as [Hx Ha]. now rewrite Hx, IH.
Qed.

Lemma lstrip_head (ws : ascii -> bool) (s : string) :
  lstrip ws s = ""
  \/ exists a t, lstrip ws s = String a t /\ ws a = false.
Proof.
  induction s as [|x s IH]; simpl; [now left|].
  destruct (ws x) eqn:Ex; [exact IH | right; eauto].
Qed.

Lemma lstrip_all (ws : ascii -> bool) (s : string) :
  forallb ws s = true -> lstrip ws s = "".
Proof.
  induction s as [|x s IH]; simpl; [reflexivity|]. intros H.
  apply andb_true_iff in H as [Hx Hs]. now rewrite Hx, IH.
Qed.

Lemma lstrip_empty (ws : ascii -> bool) (s : string) :
  lstrip ws s = "" -> forallb ws s = true.
Proof.
  induction s as [|x s IH]; simpl; [reflexivity|].
  destruct (ws x); [exact IH | discriminate].
Qed.

Lemma lstrip_app_keep (ws : ascii -> bool) (s b : string) :
  lstrip ws s <> "" -> lstrip ws (s ++ b) = lstrip ws s ++ b.
Proof.
  induction s as [|x s IH]; simpl; [contradiction|].
  destruct (ws x); [exact IH | reflexivity].
Qed.

Lemma lstrip_fixed (ws : ascii -> bool) (a : ascii) (t : string) :
  ws a = false -> lstrip ws (String a t) = String a t.
Proof. intros H. simpl. now rewrite H. Qed.

Lemma strip_idem (s : string) : strip (strip s) = strip s.
Proof.
  unfold strip.
  destruct (lstrip_head is_whitespace s) as [-> | [a [t [-> Ha]]]];
    [reflexivity|].
  destruct (rstrip_cons_shape is_whitespace a t) as [-> | [t' E]];
    [reflexivity|].
  rewrite E, (lstrip_fixed _ _ _ Ha), <- E. apply rstrip_idem.
Qed.

Lemma strip_padding (a s b : string) :
  forallb is_whitespace a = true -> forallb is_whitespace b = true ->
  strip (a ++ s ++ b) = strip s.
Proof.
  intros Ha Hb. unfold strip. rewrite (lstrip_app_all _ _ _ Ha).
  destruct (lstrip is_whitespace s) eqn:E.
  - apply lstrip_empty in E. rewrite lstrip_all; [reflexivity|].
    now rewrite forallb_app, E, Hb.
  - rewrite lstrip_app_keep by (rewrite E; discriminate). rewrite E.
    now apply rstrip_app_all.
Qed.

Lemma whitespace_lower (c : ascii) :
  is_whitespace (lower_char c) = is_whitespace c.
Proof.
  destruct c as [[] [] [] [] [] [] [] []]; vm_compute; reflexivity.
Qed.

Lemma lstrip_lower (s : string) :
  lstrip is_whitespace (lower s) = lower (lstrip is_whitespace s).
Proof.
  induction s as [|x s IH]; simpl; [reflexivity|].
  rewrite whitespace_lower. now destruct (is_whitespace x).
Qed.

Lemma rstrip_lower (s : string) :
  rstrip is_whitespace (lower s) = lower (rstrip is_whitespace s).
Proof.
  induction s as [|x s IH]; simpl; [reflexivity|].
  rewrite IH, whitespace_lower.
  destruct (rstrip is_whitespace s); simpl; [|reflexivity].
  now destruct (is_whitespace x).
Qed.

Lemma strip_lower (s : string) : strip (lower s) = lower (strip s).
Proof. unfold strip. now rewrite lstrip_lower, rstrip_lower. Qed.

(** X21: the join key ignores case and surrounding whitespace.  The text
    [load_and_normalize] leaves in a cell is the same for two spellings of
    a login that differ in the case of their letters or in whitespace
    around them, and normalising a second time changes nothing. *)
Theorem normalize_cell_key (s : string) :
  normalize_cell (normalize_cell s) = normalize_cell s
  /\ (forall a b,
         forallb is_whitespace a = true -> forallb is_whitespace b = true ->
         normalize_cell (a ++ s ++ b) = normalize_cell s)
  /\ (forall s', lower s = lower s' -> normalize_cell s = normalize_cell s').
Proof.
  unfold normalize_cell. split; [|split].
  - now rewrite strip_lower, strip_idem, lower_idem.
  - intros a b Ha Hb. now rewrite strip_padding.
  - intros s' H. now rewrite <- !strip_lower, H.
Qed.

End KeyFacts.

Section JoinFacts.
  Import Str Py saml_map.
  Local Open Scope list_scope.

  Variables S U : Type.

  Local Abbreviation SamlRow := (SamlRow S).
  Local Abbreviation UserRow := (UserRow U).

(** The rows of the merged frame for one SAML row. *)
Definition joined (s : SamlRow) (users : list UserRow)
  : list (SamlRow * option UserRow) :=
  match matching S U s users with
  | [] => [(s, None)]
  | found => map (fun u => (s, Some u)) found
  end.

Lemma in_joined (s s' : SamlRow) (o : option UserRow) (users : list UserRow) :
  In (s', o) (joined s users) <->
  s' = s /\ match o with
            | None => matching S U s users = []
            | Some u => In u (matching S U s users)
            end.
Proof.
  unfold joined. destruct (matching S U s users) as [|u0 found] eqn:E.
  - simpl. split.
    + intros [[= <- <-] | []]. now split.
    + intros [-> H]. destruct o; [contradiction | now left].
  - rewrite in_map_iff. split.
    + intros [u [[= <- <-] Hin]]. now split.
    + intros [-> H]. destruct o as [u|]; [|discriminate]. now exists u.
Qed.

Lemma in_merge (s : SamlRow) (o : option UserRow) (saml : list SamlRow)
    (users : list UserRow) :
  In (s, o) (merge S U saml users) <->
  In s saml /\ match o with
               | None => matching S U s users = []
               | Some u => In u (matching S U s users)
               end.
Proof.
  unfold merge. rewrite in_flat_map. fold (joined). split.
  - intros [x [Hx Hin]]. apply (in_joined x) in Hin as [-> H]. now split.
  - intros [Hs H]. exists s. split; [assumption|]. now apply in_joined.
Qed.





Lemma in_matching (s : SamlRow) (u : UserRow) (users : list UserRow) :
  In u (matching S U s users) <->
  In u users /\ user_login U u = saml_login S s.
Proof.
  unfold matching. rewrite filter_In. now rewrite String.eqb_eq.
Qed.

Lemma in_unmatched_github (u : UserRow) (saml : list SamlRow)
    (users : list UserRow) :
  In u (unmatched_github S U saml users) <->
  In u users /\ ~ In (user_login U u) (map (saml_login S) saml).
Proof.
  unfold unmatched_github. rewrite filter_In, negb_true_iff.
  split; intros [Hu H]; split; try assumption.
  - intros Hin. apply in_map_iff in Hin as [s [E Hs]].
    assert (Ht : existsb (String.eqb (user_login U u))
                   (map (saml_login S) saml) = true).
    { apply existsb_exists. exists (saml_login S s).
      split; [now apply in_map | now apply String.eqb_eq]. }
    congruence.
  - destruct (existsb _ _) eqn:Ee; [|reflexivity]. exfalso. apply H.
    apply existsb_exists in Ee as [l [Hl E]].
    apply String.eqb_eq in E. now rewrite E.
Qed.

(** X23: every user row is reported exactly one way.  A row of the users
    frame is written to the unmatched GitHub frame when no SAML row has its
    login, and is in the merged frame, beside each SAML row with its login,
    otherwise; never both and never neither. *)
Theorem user_rows_accounted
    (saml : list SamlRow) (users : list UserRow) (u : UserRow) :
  In u users ->
  (In u (unmatched_github S U saml users)
   <-> ~ In (user_login U u) (map (saml_login S) saml))
  /\ ((exists s, In (s, Some u) (merge S U saml users))
      <-> In (user_login U u) (map (saml_login S) saml))
  /\ ~ (In u (unmatched_github S U saml users)
        /\ exists s, In (s, Some u) (merge S U saml users))
  /\ (forall s, In (s, Some u) (merge S U saml users) ->
                In s saml /\ saml_login S s = user_login U u).
Proof.
  intros Hu.
  assert (Hm : (exists s, In (s, Some u) (merge S U saml users))
               <-> In (user_login U u) (map (saml_login S) saml)).
  { split.
    - intros [s Hin]. apply in_merge in Hin as [Hs Hin].
      apply in_matching in Hin as [_ E]. rewrite E. now apply in_map.
    - intros Hin. apply in_map_iff in Hin as [s [E Hs]]. exists s.
      apply in_merge. split; [assumption|]. now apply in_matching. }
  split; [|split; [exact Hm|split]].
  - rewrite in_unmatched_github. tauto.
  - intros [H1 H2]. apply in_unmatched_github in H1 as [_ H1].
    apply H1. now apply Hm.
  - intros s Hin. apply in_merge in Hin as [Hs Hin].
    apply in_matching in Hin as [_ E]. now split.
Qed.

End JoinFacts.

Section JoinWitnesses.
  Import Str Py saml_map.
  Local Open Scope list_scope.

(** A SAML export of two logins and a user export of two, one in common. *)
Definition saml_rows : list (SamlRow unit) :=
  [{| saml_login := "alice"; saml_rest := tt |};
   {| saml_login := "bob"; saml_rest := tt |}].

Definition user_rows : list (UserRow unit) :=
  [{| user_login := "alice"; github_email := "alice@example.com";
      user_rest := tt |};
   {| user_login := "carol"; github_email := "carol@example.com";
      user_rest := tt |}].

Lemma user_rows_accounted_witness :
  In {| user_login := "carol"; github_email := "carol@example.com";
        user_rest := tt |}
    (unmatched_github unit unit saml_rows user_rows)
  <-> ~ In "carol" (map (saml_login unit) saml_rows).
Proof.
  apply (user_rows_accounted unit unit saml_rows user_rows
           {| user_login := "carol"; github_email := "carol@example.com";
              user_rest := tt |}).
  simpl. auto.
Defined.

End JoinWitnesses.

Section OutputFacts.
  Import Str Py saml_map.
  Local Open Scope list_scope.





End OutputFacts.

(** ** [load_and_normalize]: the column names

    What lines 68 to 81 do with the headers of the two files, as
    [read_csv] gives them (it makes the names of one file distinct). *)
Module saml_header.
  Import Str Py.

(** The exceptions of [load_and_normalize]. *)
Inductive load_error : Type :=
| SamlWithoutLogin   (* ValueError("SAML CSV must have a 'login' column") *)
| IndexOutOfRange    (* IndexError: the users file has no second column *)
| NoLoginColumn      (* KeyError: 'login' *)
| TwoEmailColumns.   (* AttributeError: two columns named github_email *)

(** [name in columns] *)
Definition has_column (name : string) (columns : list string) : bool :=
  existsb (String.eqb name) columns.

(** [df.rename(columns={old: new})] on the column names. *)
Definition rename (old new : string) (columns : list string) : list string :=
  map (fun c => if String.eqb c old then new else c) columns.

(** The columns of the users frame after lines 72 to 76. *)
Definition renamed_users (columns : list string)
  : load_error + list string :=
  if negb (has_column "login" columns) then
    match columns with
    | c0 :: c1 :: _ =>
        inr (map (fun c => if String.eqb c c0 then "login"
                           else if String.eqb c c1 then "github_email"
                           else c) columns)
    | _ => inl IndexOutOfRange
    end
  else
    match columns with
    | _ :: c1 :: _ => inr (rename c1 "github_email" columns)
    | _ => inl IndexOutOfRange
    end.

(** The columns of the users frame [load_and_normalize] returns, or the
    exception it raises, from the columns of the two files. *)
Definition load_columns (saml_columns users_columns : list string)
  : load_error + list string :=
  if negb (has_column "login" saml_columns) then inl SamlWithoutLogin
  else
    match renamed_users users_columns with
    | inl e => inl e
    | inr columns =>
        if negb (has_column "login" columns) then inl NoLoginColumn
        else if Nat.ltb 1 (count_occ string_dec columns "github_email")
        then inl TwoEmailColumns
        else inr columns
    end.

End saml_header.

Section HeaderFacts.
  Import Str Py saml_header.
  Local Open Scope list_scope.

Lemma has_column_in (name : string) (columns : list string) :
  has_column name columns = true <-> In name columns.
Proof.
  unfold has_column. rewrite existsb_exists. split.
  - intros [c [Hin E]]. apply String.eqb_eq in E. now subst.
  - intros H. exists name. split; [assumption | apply String.eqb_refl].
Qed.

Lemma map_unchanged (f : string -> string) (l : list string) :
  (forall c, In c l -> f c = c) -> map f l = l.
Proof.
  induction l as [|a l IH]; simpl; intros H; [reflexivity|].
  rewrite H by now left. f_equal. apply IH. intros c Hc. apply H. now right.
Qed.

Lemma count_absent (name : string) (l : list string) :
  ~ In name l -> count_occ string_dec l name = 0.
Proof. apply count_occ_not_In. Qed.

(** X25: the users file needs two columns, and its second column is the
    e-mail whatever its name.  With distinct column names: a users file
    with fewer than two columns raises [IndexError]; one whose second
    column is named [login] raises [KeyError], because that column is
    renamed; and otherwise, when no other column is already named
    [github_email], the frame returned has [github_email] as second
    column, [login] as first column when the file had no [login] column,
    and every other column under its own name. *)
Theorem users_header_columns
    (saml_columns : list string) (c0 c1 : string) (others : list string) :
  In "login" saml_columns ->
  NoDup (c0 :: c1 :: others) ->
  load_columns saml_columns [] = inl IndexOutOfRange
  /\ load_columns saml_columns [c0] = inl IndexOutOfRange
  /\ (c1 = "login" ->
      load_columns saml_columns (c0 :: c1 :: others) = inl NoLoginColumn)
  /\ (~ In "github_email" others ->
      (~ In "login" (c0 :: c1 :: others) ->
       load_columns saml_columns (c0 :: c1 :: others)
       = inr ("login" :: "github_email" :: others))
      /\ (In "login" (c0 :: others) -> c0 <> "github_email" ->
          load_columns saml_columns (c0 :: c1 :: others)
          = inr (c0 :: "github_email" :: others))).
Proof.
  intros Hs Hd. apply has_column_in in Hs.
  inversion Hd as [|? ? Hn0 Hd']; subst.
  inversion Hd' as [|? ? Hn1 Hd'']; subst.
  assert (H01 : c0 <> c1) by (intros ->; apply Hn0; now left).
  assert (Hrest0 : forall c, In c others -> c <> c0)
    by (intros c Hc ->; apply Hn0; now right).
  assert (Hrest1 : forall c, In c others -> c <> c1)
    by (intros c Hc ->; now apply Hn1).
  unfold load_columns. rewrite Hs. cbn [negb].
  split; [|split; [|split]].
  - reflexivity.
  - unfold renamed_users. now destruct (negb (has_column "login" [c0])).
  - intros ->. unfold renamed_users.
    assert (Hl : has_column "login" (c0 :: "login" :: others) = true)
      by (apply has_column_in; right; now left).
    rewrite Hl. cbn [negb]. unfold rename. cbn [map].
    rewrite String.eqb_refl.
    destruct (String.eqb_spec c0 "login") as [E|_]; [congruence|].
    rewrite map_unchanged.
    + assert (Hno : has_column "login" (c0 :: "github_email" :: others)
                    = false).
      { destruct (has_column "login" (c0 :: "github_email" :: others))
          eqn:E; [|reflexivity].
        apply has_column_in in E as [E | [E | E]];
          [congruence | discriminate | contradiction]. }
      now rewrite Hno.
    + intros c Hc. destruct (String.eqb_spec c "login"); [|reflexivity].
      subst. contradiction.
  - intros He. split.
    + intros Hnl. unfold renamed_users.
      assert (Hl : has_column "login" (c0 :: c1 :: others) = false).
      { destruct (has_column "login" (c0 :: c1 :: others)) eqn:E;
          [|reflexivity].
        apply has_column_in in E. contradiction. }
      rewrite Hl. cbn [negb map]. rewrite String.eqb_refl.
      destruct (String.eqb_spec c1 c0) as [E|_]; [congruence|].
      rewrite String.eqb_refl. rewrite map_unchanged.
      * cbn. destruct (string_dec "github_email" "login"); [discriminate|].
        destruct (string_dec "github_email" "github_email"); [|congruence].
        rewrite count_absent by assumption. reflexivity.
      * intros c Hc.
        destruct (String.eqb_spec c c0) as [E|_];
          [now apply Hrest0 in Hc|].
        destruct (String.eqb_spec c c1) as [E|_];
          [now apply Hrest1 in Hc | reflexivity].
    + intros Hl Hc0. unfold renamed_users.
      assert (Hl' : has_column "login" (c0 :: c1 :: others) = true).
      { apply has_column_in. destruct Hl as [-> | Hl];
          [now left | right; now right]. }
      rewrite Hl'. cbn [negb]. unfold rename. cbn [map].
      destruct (String.eqb_spec c0 c1) as [E|_]; [congruence|].
      rewrite String.eqb_refl. rewrite map_unchanged.
      * assert (Hl2 : has_column "login" (c0 :: "github_email" :: others)
                      = true).
        { apply has_column_in. destruct Hl as [-> | Hl];
            [now left | right; now right]. }
        rewrite Hl2. cbn [negb].
        assert (Hc : count_occ string_dec
                       (c0 :: "github_email" :: others) "github_email" <= 1).
        { cbn [count_occ].
          destruct (string_dec "github_email" "github_email"); [|congruence].
          rewrite count_absent by assumption.
          destruct (string_dec c0 "github_email") as [E|_];
            [contradiction | lia]. }
        destruct (Nat.ltb_spec 1 (count_occ string_dec
                                    (c0 :: "github_email" :: others)
                                    "github_email")); [lia | reflexivity].
      * intros c Hc. destruct (String.eqb_spec c c1) as [E|_];
          [now apply Hrest1 in Hc | reflexivity].
Qed.

Lemma users_header_columns_witness :
  load_columns ["login"; "name_id"] ["login"; "email"; "role"]
  = inr ["login"; "github_email"; "role"].
Proof.
  refine (proj2 (proj2 (proj2 (proj2
            (users_header_columns ["login"; "name_id"] "login" "email" ["role"]
               _ _))) _) _ _).
  - now left.
  - repeat constructor; simpl; intuition discriminate.
  - simpl. intuition discriminate.
  - now left.
  - discriminate.
Defined.

End HeaderFacts.
